(** * nox-poetry: the Poetry interface ([src/nox_poetry/poetry.py])

    A shallow embedding of the [Config] and [Poetry] classes together with
    the Python built-ins they rely on, followed by the properties the
    specification states about them. *)

From Stdlib Require Import String Ascii.
From Stdlib Require Import List NArith ZArith Bool Lia Permutation.
Import ListNotations.

Set Implicit Arguments.

(** ** Python values used by the module *)

(** A Python [str] is a sequence of Unicode code points. *)
Definition char := N.
Definition str := list char.

(** A string literal of the source, as the code points of its characters. *)
Definition lit (s : string) : str := map N_of_ascii (list_ascii_of_string s).
Arguments lit s%_string.

(** The exceptions that can leave the module.  The first two are the
    classes it declares itself; [External] stands for whatever a
    collaborator raises (a missing file, a parse error, a missing package,
    a failed command). *)
Inductive exn :=
| IncompatiblePoetryVersionError
| CommandSkippedError (msg : str)
| ValueError
| KeyError
| TypeError
| AttributeError
| AssertionError
| IndexError
| External (name : str).

Inductive result (A : Type) :=
| Return (a : A)
| Raise (e : exn).
Arguments Return {A} a.
Arguments Raise {A} e.

Module PyStr.

Local Open Scope N_scope.

Fixpoint eqb (s t : str) : bool :=
  match s, t with
  | [], [] => true
  | c :: s', d :: t' => (c =? d) && eqb s' t'
  | _, _ => false
  end.

(** [s.startswith(prefix)] *)
Fixpoint startswith (s prefix : str) {struct prefix} : bool :=
  match prefix with
  | [] => true
  | p :: prefix' =>
      match s with
      | [] => false
      | c :: s' => (c =? p) && startswith s' prefix'
      end
  end.

(** The characters [str.splitlines] treats as line boundaries:
    LF, VT, FF, CR, FS, GS, RS, NEL, LINE SEPARATOR, PARAGRAPH SEPARATOR. *)
Definition is_linebreak (c : char) : bool :=
  existsb (N.eqb c) [10; 11; 12; 13; 28; 29; 30; 133; 8232; 8233].

(** The characters [str.split()] treats as whitespace. *)
Definition isspace (c : char) : bool :=
  ((9 <=? c) && (c <=? 13))
  || ((28 <=? c) && (c <=? 32))
  || ((8192 <=? c) && (c <=? 8202))
  || existsb (N.eqb c) [133; 160; 5760; 8232; 8233; 8239; 8287; 12288].

(** [s.splitlines(keepends)], with [line] the characters of the line being
    scanned.  A carriage return directly followed by a line feed is one
    boundary; a last line without terminator is kept when it is not
    empty. *)
Fixpoint splitlines_from (keepends : bool) (line s : str) : list str :=
  match s with
  | [] => match line with [] => [] | _ :: _ => [line] end
  | c :: rest =>
      if is_linebreak c then
        match rest with
        | c' :: rest' =>
            if (c =? 13) && (c' =? 10)
            then (if keepends then line ++ [c; c'] else line)
                   :: splitlines_from keepends [] rest'
            else (if keepends then line ++ [c] else line)
                   :: splitlines_from keepends [] rest
        | [] => [if keepends then line ++ [c] else line]
        end
      else splitlines_from keepends (line ++ [c]) rest
  end.

Definition splitlines (s : str) (keepends : bool) : list str :=
  splitlines_from keepends [] s.

(** [s.split()]: the maximal runs of non-whitespace characters, with
    [word] the characters of the run being scanned. *)
Fixpoint split_from (word s : str) : list str :=
  match s with
  | [] => match word with [] => [] | _ :: _ => [word] end
  | c :: rest =>
      if isspace c then
        match word with
        | [] => split_from [] rest
        | _ :: _ => word :: split_from [] rest
        end
      else split_from (word ++ [c]) rest
  end.

Definition split (s : str) : list str := split_from [] s.

(** [sep.join(parts)] *)
Fixpoint join (sep : str) (parts : list str) : str :=
  match parts with
  | [] => []
  | [p] => p
  | p :: ps => p ++ sep ++ join sep ps
  end.

End PyStr.

(** [l[i]] on a Python list: a negative index counts from the end, and an
    index outside the list raises [IndexError]. *)
Definition list_getitem (A : Type) (l : list A) (i : Z) : result A :=
  let n := Z.of_nat (length l) in
  let j := if (i <? 0)%Z then (i + n)%Z else i in
  if ((j <? 0) || (n <=? j))%Z then Raise IndexError
  else match nth_error l (Z.to_nat j) with
       | Some x => Return x
       | None => Raise IndexError
       end.

(** ** [packaging.version.Version] *)

Module Version.

Local Open Scope N_scope.

(** The letter of a pre-release: alpha, beta or release candidate. *)
Inductive pre_letter := a | b | rc.

(** A segment of a local version label. *)
Inductive local_part :=
| Num (n : N)
| Txt (s : str).

(** Modelled from the spec: the class [Version] of the third-party package
    [packaging] is used by [Config] but is not part of the source tree.
    The spec asks for the standard version-precedence rules, compared
    component by component.  A value of [t] is a parsed version: the
    epoch, the release numbers, and the optional pre-release, post-release,
    development-release and local parts.  ["1.2.0"] is parsed to release
    [1; 2; 0] with no other part, ["1.3.0-alpha"] to release [1; 3; 0] with
    pre-release [(a, 0)]. *)
Record t := make {
  epoch : N;
  release : list N;
  pre : option (pre_letter * N);
  post : option N;
  dev : option N;
  local : option (list local_part)
}.

(** The sort key has two sentinels that compare below and above every
    other value. *)
Inductive bounded (A : Type) :=
| NegativeInfinity
| Finite (x : A)
| Infinity.
Arguments NegativeInfinity {A}.
Arguments Finite {A} x.
Arguments Infinity {A}.

Definition bounded_compare (A : Type) (cmp : A -> A -> comparison)
    (x y : bounded A) : comparison :=
  match x, y with
  | NegativeInfinity, NegativeInfinity => Eq
  | NegativeInfinity, _ => Lt
  | Finite _, NegativeInfinity => Gt
  | Finite u, Finite v => cmp u v
  | Finite _, Infinity => Lt
  | Infinity, Infinity => Eq
  | Infinity, _ => Gt
  end.

Definition then_compare (c d : comparison) : comparison :=
  match c with Eq => d | _ => c end.

(** Python compares tuples (and strings) position by position; when one
    is a prefix of the other the shorter one is smaller. *)
Fixpoint tuple_compare (A : Type) (cmp : A -> A -> comparison)
    (x y : list A) : comparison :=
  match x, y with
  | [], [] => Eq
  | [], _ :: _ => Lt
  | _ :: _, [] => Gt
  | u :: x', v :: y' => then_compare (cmp u v) (tuple_compare cmp x' y')
  end.

(** The letters are the strings ["a"], ["b"] and ["rc"]. *)
Definition letter_rank (l : pre_letter) : N :=
  match l with a => 0 | b => 1 | rc => 2 end.

Definition pre_compare (x y : pre_letter * N) : comparison :=
  then_compare (letter_rank (fst x) ?= letter_rank (fst y)) (snd x ?= snd y).

(** A numeric local part is keyed [(n, "")] and a textual one
    [(NegativeInfinity, s)]. *)
Definition local_part_compare (x y : local_part) : comparison :=
  match x, y with
  | Num m, Num n => m ?= n
  | Num _, Txt _ => Gt
  | Txt _, Num _ => Lt
  | Txt s, Txt u => tuple_compare N.compare s u
  end.

Fixpoint dropwhile (A : Type) (p : A -> bool) (l : list A) : list A :=
  match l with
  | [] => []
  | x :: l' => if p x then dropwhile p l' else l
  end.

Record key := {
  key_epoch : N;
  key_release : list N;
  key_pre : bounded (pre_letter * N);
  key_post : bounded N;
  key_dev : bounded N;
  key_local : bounded (list local_part)
}.

(** Modelled from the spec: the sort key of [Version], by which the
    precedence rules are decided.  Trailing zeros of the release are
    dropped; a version
    with only a development part sorts before its pre-releases, and one
    without pre-release part after them; a missing post-release part
    sorts first, a missing development part last, a missing local part
    first. *)
Definition _cmpkey (v : t) : key :=
  {| key_epoch := epoch v;
     key_release := rev (dropwhile (N.eqb 0) (rev (release v)));
     key_pre :=
       match pre v, post v, dev v with
       | None, None, Some _ => NegativeInfinity
       | None, _, _ => Infinity
       | Some p, _, _ => Finite p
       end;
     key_post := match post v with None => NegativeInfinity | Some n => Finite n end;
     key_dev := match dev v with None => Infinity | Some n => Finite n end;
     key_local := match local v with None => NegativeInfinity | Some l => Finite l end |}.

Definition key_compare (k l : key) : comparison :=
  then_compare (key_epoch k ?= key_epoch l)
 (then_compare (tuple_compare N.compare (key_release k) (key_release l))
 (then_compare (bounded_compare pre_compare (key_pre k) (key_pre l))
 (then_compare (bounded_compare N.compare (key_post k) (key_post l))
 (then_compare (bounded_compare N.compare (key_dev k) (key_dev l))
               (bounded_compare (tuple_compare local_part_compare)
                  (key_local k) (key_local l)))))).

(** Modelled from the spec: [v >= w] on [Version], the comparison of the
    two sort keys as tuples. *)
Definition ge (v w : t) : bool :=
  match key_compare (_cmpkey v) (_cmpkey w) with
  | Lt => false
  | _ => true
  end.

(** A final release [Version("x.y.z")]. *)
Definition final (numbers : list N) : t := make 0 numbers None None None None.

End Version.

(** ** The project manifest *)

(** Modelled from the spec: the items a manifest parsed by the third-party
    package [tomlkit] is made of.  Only [TString] is a [str] and only
    [Table] is a [dict]; the keys of a table are strings, in the order of
    the file. *)
#[warnings="-register-all"]
Inductive toml :=
| TString (s : str)
| Integer (z : Z)
| Float (text : str)
| Boolean (b : bool)
| DateTime (text : str)
| Array (items : list toml)
| Table (entries : list (str * toml)).

(** The entry stored under [key] in a mapping. *)
Fixpoint dict_lookup (key : str) (entries : list (str * toml)) : option toml :=
  match entries with
  | [] => None
  | (k, v) :: entries' => if PyStr.eqb k key then Some v else dict_lookup key entries'
  end.

(** [obj[key]] with a string key. *)
Definition getitem (obj : toml) (key : str) : result toml :=
  match obj with
  | Table entries =>
      match dict_lookup key entries with
      | Some v => Return v
      | None => Raise KeyError
      end
  | _ => Raise TypeError
  end.

(** [obj.get(key, default)] *)
Definition get (obj : toml) (key : str) (default : toml) : result toml :=
  match obj with
  | Table entries =>
      match dict_lookup key entries with
      | Some v => Return v
      | None => Return default
      end
  | _ => Raise AttributeError
  end.

Definition isinstance_str (obj : toml) : bool :=
  match obj with TString _ => true | _ => false end.

Definition isinstance_dict (obj : toml) : bool :=
  match obj with Table _ => true | _ => false end.

(** A path, as its components. *)
Definition Path := list str.

(** What the module reads from outside: the working directory, the result
    of reading and parsing the TOML file at a path, and the result of
    [Version(metadata.version("poetry"))]. *)
Record Environment := {
  cwd : Path;
  parse_file : Path -> result toml;
  poetry_installed : result Version.t
}.

(** One call of [session.run_always]. *)
Record Command := {
  args : list str;
  external : bool;
  silent : bool;
  stderr : option str
}.

(** What a session hands back for a command it has run: the captured
    text, as [silent=True] asks for, or some object that is not a [str]. *)
Inductive answer :=
| Text (s : str)
| NotText.

(** The session returns its answer, or [None] when it skipped the
    command. *)
Record Session := {
  run_always : Command -> result (option answer)
}.

(** [assert isinstance(output, str)], and the text that [output] then is. *)
Definition assert_str (output : answer) : result str :=
  match output with
  | Text s => Return s
  | NotText => Raise AssertionError
  end.

Inductive DistributionFormat := WHEEL | SDIST.

(** Sequencing of steps that can raise. *)
Definition and_then (A B : Type) (r : result A) (k : A -> result B) : result B :=
  match r with
  | Return x => k x
  | Raise e => Raise e
  end.

Notation "'try' x := r 'in' k" := (and_then r (fun x => k))
  (at level 10, x name, r at level 100, k at level 200).

(** [assert cond] *)
Definition assert (cond : bool) : result unit :=
  if cond then Return tt else Raise AssertionError.

(** ** class [Config] *)

Module Config.

(** A [Config] object: its identity and its [_config] attribute. *)
Record t := {
  id : nat;
  _config : toml
}.

(** [Version("1.2.0")] *)
Definition MINIMUM_VERSION_SUPPORTING_GROUP_DEPS : Version.t :=
  Version.final [1; 2; 0]%N.

(** [self] is the identity of the object being initialised. *)
Definition __init__ (env : Environment) (self : nat) (project : Path) : result t :=
  let path := project ++ [lit "pyproject.toml"] in
  try data := parse_file env path in
  try tool := getitem data (lit "tool") in
  try poetry := getitem tool (lit "poetry") in
  Return {| id := self; _config := poetry |}.

Definition name (self : t) : result str :=
  try name := getitem (_config self) (lit "name") in
  match name with
  | TString s => Return s
  | _ => Raise AssertionError
  end.

(** The keys of a table are strings, so the second conjunct of the
    assertion holds for every table. *)
Definition extras (self : t) : result (list str) :=
  try extras := get (_config self) (lit "extras") (Table []) in
  match extras with
  | Table entries =>
      try _ := assert (forallb (fun extra : str => true) (map fst entries)) in
      Return (map fst entries)
  | _ => Raise AssertionError
  end.

Definition version (env : Environment) : result Version.t :=
  poetry_installed env.

Definition is_compatible_with_group_deps (env : Environment) : result bool :=
  try installed := version env in
  Return (Version.ge installed MINIMUM_VERSION_SUPPORTING_GROUP_DEPS).

End Config.

(** ** class [Poetry] *)

Module Poetry.

Record t := {
  session : Session;
  _config : option Config.t
}.

(** What a method can change: the adapter itself, the text written to
    [sys.stderr], the commands handed to the session (oldest first) and
    the number of [Config] objects constructed. *)
Record State := {
  self : t;
  sys_stderr : str;
  executed : list Command;
  constructed : nat
}.

(** A method maps the state before the call to its outcome and the state
    after it; what was changed before an exception stays changed. *)
Definition M (A : Type) := State -> result A * State.

Definition ret (A : Type) (x : A) : M A := fun st => (Return x, st).

Definition raise (A : Type) (e : exn) : M A := fun st => (Raise e, st).
Arguments raise {A} e.

Definition bind (A B : Type) (m : M A) (k : A -> M B) : M B :=
  fun st =>
    match m st with
    | (Return x, st') => k x st'
    | (Raise e, st') => (Raise e, st')
    end.

Definition lift (A : Type) (r : result A) : M A := fun st => (r, st).

Notation "x <- m ;; k" := (bind m (fun x => k))
  (at level 61, m at next level, right associativity).
Notation "m ;; k" := (bind m (fun _ => k))
  (at level 61, right associativity).

Definition __init__ (session : Session) : t :=
  {| session := session; _config := None |}.

(** The state right after [Poetry(session)]. *)
Definition fresh (session : Session) : State :=
  {| self := __init__ session; sys_stderr := []; executed := []; constructed := 0 |}.

Definition bump_constructed (st : State) : State :=
  {| self := self st; sys_stderr := sys_stderr st;
     executed := executed st; constructed := S (constructed st) |}.

Definition store__config (c : Config.t) (st : State) : State :=
  {| self := {| session := session (self st); _config := Some c |};
     sys_stderr := sys_stderr st;
     executed := executed st; constructed := constructed st |}.

Definition record_command (command : Command) (st : State) : State :=
  {| self := self st; sys_stderr := sys_stderr st;
     executed := executed st ++ [command]; constructed := constructed st |}.

Definition write_stderr (text : str) (st : State) : State :=
  {| self := self st; sys_stderr := sys_stderr st ++ text;
     executed := executed st; constructed := constructed st |}.

(** [Config(project)]: a new object, counted when its initialisation
    succeeds. *)
Definition new_Config (env : Environment) (project : Path) : M Config.t :=
  fun st =>
    match Config.__init__ env (constructed st) project with
    | Return c => (Return c, bump_constructed st)
    | Raise e => (Raise e, st)
    end.

Definition get__config : M (option Config.t) :=
  fun st => (Return (_config (self st)), st).

Definition set__config (c : Config.t) : M unit :=
  fun st => (Return tt, store__config c st).

(** The [config] property. *)
Definition config (env : Environment) : M Config.t :=
  cached <- get__config ;;
  match cached with
  | None =>
      c <- new_Config env (cwd env) ;;
      set__config c ;;
      ret c
  | Some c => ret c
  end.

(** A call of [self.session.run_always]; it is recorded whether or not
    the session raises. *)
Definition session_run_always (command : Command) : M (option answer) :=
  fun st => (run_always (session (self st)) command, record_command command st).

(** [print(line, file=sys.stderr)] writes the line and then a newline. *)
Definition print_stderr (line : str) : M unit :=
  fun st => (Return tt, write_stderr (line ++ [10%N]) st).

(** The generator [_stripwarnings], run to its end by [join]. *)
Fixpoint _stripwarnings (lines : list str) : M (list str) :=
  match lines with
  | [] => ret []
  | line :: lines' =>
      if PyStr.startswith line (lit "Warning:") then
        print_stderr line ;;
        _stripwarnings lines'
      else
        rest <- _stripwarnings lines' ;;
        ret (line :: rest)
  end.

(** The truth value of the optional list [groups]. *)
Definition truthy (A : Type) (groups : option (list A)) : bool :=
  match groups with
  | Some (_ :: _) => true
  | _ => false
  end.

Definition elements (A : Type) (groups : option (list A)) : list A :=
  match groups with
  | Some l => l
  | None => []
  end.

Definition export (env : Environment) (groups : option (list str)) : M str :=
  cfg <- config env ;;
  extras <- lift (Config.extras cfg) ;;
  let args :=
    [lit "poetry"; lit "export"; lit "--format=requirements.txt"]
    ++ map (fun extra => lit "--extras=" ++ extra) extras
    ++ [lit "--without-hashes"] in
  args <-
    (if truthy groups then
       ret (args ++ map (fun group => lit "--only=" ++ group) (elements groups))
     else
       cfg <- config env ;;
       compatible <- lift (Config.is_compatible_with_group_deps env) ;;
       if compatible then ret (args ++ [lit "--with=dev"])
       else ret (args ++ [lit "--dev"])) ;;
  output <- session_run_always
              {| args := args; external := true; silent := true; stderr := None |} ;;
  match output with
  | None =>
      raise (CommandSkippedError
               (lit "The command `poetry export` was not executed"
                ++ lit " (a possible cause is specifying `--no-install`)"))
  | Some output =>
      output <- lift (assert_str output) ;;
      lines <- _stripwarnings (PyStr.splitlines output true) ;;
      ret (PyStr.join [] lines)
  end.

(** The [format] argument is a string; a member of [DistributionFormat]
    is one too. *)
Inductive format_arg :=
| Member (f : DistributionFormat)
| Plain (s : str).

Definition value (f : DistributionFormat) : str :=
  match f with
  | WHEEL => lit "wheel"
  | SDIST => lit "sdist"
  end.

(** [DistributionFormat(s)]: the member whose value is [s]. *)
Definition DistributionFormat_of_value (s : str) : result DistributionFormat :=
  if PyStr.eqb s (value WHEEL) then Return WHEEL
  else if PyStr.eqb s (value SDIST) then Return SDIST
  else Raise ValueError.

Definition build (format : format_arg) : M str :=
  format <-
    match format with
    | Member f => ret f
    | Plain s => lift (DistributionFormat_of_value s)
    end ;;
  output <- session_run_always
              {| args := [lit "poetry"; lit "build";
                          lit "--format=" ++ value format; lit "--no-ansi"];
                 external := true; silent := true; stderr := None |} ;;
  match output with
  | None =>
      raise (CommandSkippedError
               (lit "The command `poetry build` was not executed"
                ++ lit " (a possible cause is specifying `--no-install`)"))
  | Some output =>
      output <- lift (assert_str output) ;;
      lift (list_getitem (PyStr.split output) (-1))
  end.

End Poetry.

(** ** Vocabulary of the specification *)

(** The line is a diagnostic of the wrapped tool. *)
Definition is_warning (line : str) : bool :=
  PyStr.startswith line (lit "Warning:").

(** The output consists of whitespace only (it may be empty). *)
Definition blank (output : str) : Prop :=
  Forall (fun c => PyStr.isspace c = true) output.

(** [token] is the final whitespace-delimited token of [output]: a
    non-empty run of non-whitespace characters that nothing but whitespace
    follows and that starts the output or follows a whitespace character. *)
Definition final_token (output token : str) : Prop :=
  exists before after,
    output = before ++ token ++ after /\
    token <> [] /\
    Forall (fun c => PyStr.isspace c = false) token /\
    blank after /\
    (before = [] \/ exists b c, before = b ++ [c] /\ PyStr.isspace c = true).

(** The release numbers compared component by component, the shorter
    release padded with zeros. *)
Definition pad (n : nat) (numbers : list N) : list N :=
  numbers ++ repeat 0%N (n - length numbers).

Definition componentwise_compare (x y : list N) : comparison :=
  let n := Nat.max (length x) (length y) in
  Version.tuple_compare N.compare (pad n x) (pad n y).

(** The release numbers without their trailing zeros, as the sort key has
    them. *)
Definition significant (numbers : list N) : list N :=
  rev (Version.dropwhile (N.eqb 0) (rev numbers)).

(** The version is not before the final release with these numbers: it has
    a later epoch, or the same epoch and greater release numbers, or the
    same epoch and release numbers and is itself final or a post-release
    (not a pre-release or a development release of it). *)
Definition at_least_final (numbers : list N) (v : Version.t) : Prop :=
  (0 < Version.epoch v)%N
  \/ (Version.epoch v = 0%N
      /\ (componentwise_compare (Version.release v) numbers = Gt
          \/ (componentwise_compare (Version.release v) numbers = Eq
              /\ Version.pre v = None
              /\ (Version.post v <> None \/ Version.dev v = None)))).

(** The comparison of the two versions as text. *)
Definition string_compare (x y : str) : comparison :=
  Version.tuple_compare N.compare x y.

(** [small] occurs in [big] as a run of consecutive characters. *)
Definition mentions (big small : str) : Prop :=
  exists before after, big = before ++ small ++ after.

(** The first part of [Poetry.export], up to the call of the session: the
    command line it builds. *)
Definition export_args (env : Environment) (groups : option (list str))
    : Poetry.M (list str) :=
  Poetry.bind (Poetry.config env) (fun cfg =>
  Poetry.bind (Poetry.lift (Config.extras cfg)) (fun extras =>
    let args :=
      [lit "poetry"; lit "export"; lit "--format=requirements.txt"]
      ++ map (fun extra => lit "--extras=" ++ extra) extras
      ++ [lit "--without-hashes"] in
    if Poetry.truthy groups then
      Poetry.ret (args ++ map (fun group => lit "--only=" ++ group)
                              (Poetry.elements groups))
    else
      Poetry.bind (Poetry.config env) (fun _ =>
      Poetry.bind (Poetry.lift (Config.is_compatible_with_group_deps env))
        (fun compatible =>
           if compatible then Poetry.ret (args ++ [lit "--with=dev"])
           else Poetry.ret (args ++ [lit "--dev"]))))).

(** The command [Poetry.export] hands to the session for these arguments. *)
Definition export_command (args : list str) : Command :=
  {| args := args; external := true; silent := true; stderr := None |}.

(** The second part of [Poetry.export]: the call of the session and the
    treatment of its outcome. *)
Definition export_finish (args : list str) : Poetry.M str :=
  Poetry.bind (Poetry.session_run_always (export_command args)) (fun output =>
    match output with
    | None =>
        Poetry.raise (CommandSkippedError
                 (lit "The command `poetry export` was not executed"
                  ++ lit " (a possible cause is specifying `--no-install`)"))
    | Some output =>
        Poetry.bind (Poetry.lift (assert_str output)) (fun output =>
        Poetry.bind (Poetry._stripwarnings (PyStr.splitlines output true))
          (fun lines => Poetry.ret (PyStr.join [] lines)))
    end).

Definition build_command (format : DistributionFormat) : Command :=
  {| args := [lit "poetry"; lit "build";
              lit "--format=" ++ Poetry.value format; lit "--no-ansi"];
     external := true; silent := true; stderr := None |}.

(** The messages of the two [CommandSkippedError]s. *)
Definition export_skipped : str :=
  lit "The command `poetry export` was not executed (a possible cause is specifying `--no-install`)".

Definition build_skipped : str :=
  lit "The command `poetry build` was not executed (a possible cause is specifying `--no-install`)".

(** The member of [DistributionFormat] a [format] argument stands for. *)
Definition coerce (format : Poetry.format_arg) : result DistributionFormat :=
  match format with
  | Poetry.Member f => Return f
  | Poetry.Plain s => Poetry.DistributionFormat_of_value s
  end.

(** The fixed part of the export command line for the declared extras. *)
Definition export_prefix (extras : list str) : list str :=
  [lit "poetry"; lit "export"; lit "--format=requirements.txt"]
  ++ map (fun extra => lit "--extras=" ++ extra) extras
  ++ [lit "--without-hashes"].

(** Between the two states exactly one command went to the session. *)
Definition ran (st st' : Poetry.State) (command : Command) : Prop :=
  Poetry.executed st' = Poetry.executed st ++ [command].

(** What can be done with an adapter, each time in the environment of the
    moment. *)
Inductive call :=
| Access (env : Environment)
| Export (env : Environment) (groups : option (list str))
| Build (format : Poetry.format_arg).

Definition perform (c : call) (st : Poetry.State) : Poetry.State :=
  match c with
  | Access env => snd (Poetry.config env st)
  | Export env groups => snd (Poetry.export env groups st)
  | Build format => snd (Poetry.build format st)
  end.

Definition perform_all (calls : list call) (st : Poetry.State) : Poetry.State :=
  fold_left (fun st c => perform c st) calls st.

(** ** A sample project *)

Definition newline : str := [10%N].

(** A manifest that declares the package [foobar] with the extras
    [pygments] and [docs], in this order. *)
Definition sample_metadata : list (str * toml) :=
  [(lit "name", TString (lit "foobar"));
   (lit "version", TString (lit "0.1.0"));
   (lit "extras", Table [(lit "pygments", Array [TString (lit "pygments")]);
                         (lit "docs", Array [])])].

Definition sample_manifest : toml :=
  Table [(lit "tool", Table [(lit "poetry", Table sample_metadata)])].

(** An environment with the sample manifest and this version of the tool
    installed. *)
Definition sample_env (installed : Version.t) : Environment :=
  {| cwd := [lit "home"; lit "foobar"];
     parse_file := fun _ => Return sample_manifest;
     poetry_installed := Return installed |}.

(** An environment without a manifest. *)
Definition empty_env : Environment :=
  {| cwd := [lit "tmp"];
     parse_file := fun _ => Raise (External (lit "FileNotFoundError"));
     poetry_installed := Raise (External (lit "PackageNotFoundError")) |}.

(** A session that answers every command with the same outcome. *)
Definition sample_session (outcome : option str) : Session :=
  {| run_always := fun _ => Return (option_map Text outcome) |}.

Definition sample_requirements : str :=
  lit "Warning: The lock file is not up to date." ++ newline
  ++ lit "first==2.0.2" ++ newline
  ++ lit "Warning: deprecated" ++ newline
  ++ lit "second==1.0".

Definition sample_build_output : str :=
  lit "Building foobar (0.1.0)" ++ newline
  ++ lit " - Building wheel" ++ newline
  ++ lit " - Built foobar-0.1.0-py3-none-any.whl" ++ newline.

(** The adapter of a session that answers with the sample requirements,
    right after its construction. *)
Definition sample_state : Poetry.State :=
  Poetry.fresh (sample_session (Some sample_requirements)).

(** ** Vocabulary of the further properties *)

(** The text [Poetry.export] returns for a captured output. *)
Definition strip_warnings (output : str) : str :=
  concat (filter (fun line => negb (is_warning line)) (PyStr.splitlines output true)).

(** The lines of a captured output that [Poetry.export] diverts. *)
Definition warnings_of (output : str) : list str :=
  filter is_warning (PyStr.splitlines output true).

(** A text without line boundary. *)
Definition plain (text : str) : Prop :=
  Forall (fun c => PyStr.is_linebreak c = false) text.

(** What ends a line: one boundary character, or a carriage return and a
    line feed. *)
Definition terminator (t : str) : Prop :=
  (exists c, t = [c] /\ PyStr.is_linebreak c = true) \/ t = [13; 10]%N.

Definition terminated (line : str) : Prop :=
  exists body t, line = body ++ t /\ plain body /\ terminator t.

(** Lines as [splitlines] with kept terminators yields them: every line
    ends with its terminator, except that the last one may be a non-empty
    text without any. *)
Inductive well_split : list str -> Prop :=
| well_split_nil : well_split []
| well_split_last (line : str) : line <> [] -> plain line -> well_split [line]
| well_split_cons (line : str) (lines : list str) :
    terminated line -> well_split lines -> well_split (line :: lines).

(** A command as the two methods hand it to the session. *)
Definition poetry_command (c : Command) : Prop :=
  external c = true /\ silent c = true /\ stderr c = None
  /\ ((exists rest,
          args c = lit "poetry" :: lit "export" :: lit "--format=requirements.txt" :: rest)
      \/ (exists f,
             args c = [lit "poetry"; lit "build";
                       lit "--format=" ++ Poetry.value f; lit "--no-ansi"])).

(** The collaborators never raise this exception themselves. *)
Definition foreign (e : exn) (env : Environment) (session : Session) : Prop :=
  (forall path, parse_file env path <> Raise e)
  /\ poetry_installed env <> Raise e
  /\ (forall c, run_always session c <> Raise e).

(** An environment with the sample manifest in which the tool is not
    installed. *)
Definition uninstalled_env : Environment :=
  {| cwd := [lit "home"; lit "foobar"];
     parse_file := fun _ => Return sample_manifest;
     poetry_installed := Raise (External (lit "PackageNotFoundError")) |}.



(** The flags that select the dependencies of an export: the [--only]
    flags of the groups that are named, or else the flag that the installed
    version calls for. *)
Definition selected (env : Environment) (groups : option (list str))
    (selection : list str) : Prop :=
  (exists g gs,
      groups = Some (g :: gs)
      /\ selection = map (fun group => lit "--only=" ++ group) (g :: gs))
  \/ ((groups = None \/ groups = Some [])
      /\ exists installed,
           poetry_installed env = Return installed
           /\ selection
              = [if Version.ge installed Config.MINIMUM_VERSION_SUPPORTING_GROUP_DEPS
                 then lit "--with=dev" else lit "--dev"]).

(** ** Strings *)

Ltac conjunctions := repeat match goal with |- _ /\ _ => split end.

Lemma eqb_eq (s t : str) : PyStr.eqb s t = true <-> s = t.
Proof.
  revert t; induction s as [|c s IH]; intros [|d t]; simpl; split;
    try congruence; try reflexivity.
  - intros H. apply andb_true_iff in H as [Hc Hs].
    apply N.eqb_eq in Hc. apply IH in Hs. congruence.
  - intros H. injection H as -> ->.
    rewrite N.eqb_refl. simpl. now apply IH.
Qed.

Lemma eqb_neq (s t : str) : PyStr.eqb s t = false <-> s <> t.
Proof.
  rewrite <- eqb_eq. destruct (PyStr.eqb s t); split; congruence.
Qed.

Lemma startswith_prefix (s prefix : str) :
  PyStr.startswith s prefix = true <-> exists rest, s = prefix ++ rest.
Proof.
  revert s; induction prefix as [|p prefix IH]; intros s; simpl.
  - split; [intros _; now exists s | reflexivity].
  - destruct s as [|c s].
    + split; [discriminate | intros [rest H]; discriminate].
    + rewrite andb_true_iff, N.eqb_eq, IH. split.
      * intros [-> [rest ->]]. now exists rest.
      * intros [rest H]. injection H as -> ->. split; [reflexivity | now exists rest].
Qed.

Lemma join_empty (parts : list str) : PyStr.join [] parts = concat parts.
Proof.
  induction parts as [|p [|q ps] IH]; simpl in *.
  - reflexivity.
  - now rewrite app_nil_r.
  - now rewrite <- IH.
Qed.

(** Lines that keep their terminators reassemble to the text. *)
Lemma splitlines_from_concat (s line : str) :
  concat (PyStr.splitlines_from true line s) = line ++ s.
Proof.
  remember (length s) as n eqn:Hn.
  revert s line Hn.
  induction n as [n IH] using lt_wf_ind.
  intros [|c rest] line Hn.
  - destruct line; simpl; [reflexivity | now rewrite !app_nil_r].
  - cbn [PyStr.splitlines_from].
    destruct (PyStr.is_linebreak c).
    + destruct rest as [|c' rest'].
      * simpl. now rewrite app_nil_r.
      * destruct ((c =? 13)%N && (c' =? 10)%N); cbn [concat].
        -- rewrite (IH (length rest')) by (simpl in Hn; lia || reflexivity).
           now rewrite <- app_assoc.
        -- rewrite (IH (length (c' :: rest'))) by (simpl in Hn; simpl; lia || reflexivity).
           now rewrite <- app_assoc.
    + rewrite (IH (length rest)) by (simpl in Hn; lia || reflexivity).
      now rewrite <- app_assoc.
Qed.

(** ** Mappings *)

Lemma dict_lookup_in (key : str) (entries : list (str * toml)) (v : toml) :
  dict_lookup key entries = Some v -> In (key, v) entries.
Proof.
  induction entries as [|[k w] entries IH]; simpl; [discriminate|].
  destruct (PyStr.eqb k key) eqn:E.
  - apply eqb_eq in E as ->. intros H; injection H as ->. now left.
  - intros H. right. now apply IH.
Qed.

Lemma dict_lookup_none (key : str) (entries : list (str * toml)) :
  dict_lookup key entries = None <-> ~ In key (map fst entries).
Proof.
  induction entries as [|[k w] entries IH]; simpl.
  - tauto.
  - destruct (PyStr.eqb k key) eqn:E.
    + apply eqb_eq in E as ->. split; [discriminate | tauto].
    + apply eqb_neq in E. rewrite IH. tauto.
Qed.

(** With distinct keys every entry is the one its key is looked up to. *)
Lemma in_dict_lookup (key : str) (entries : list (str * toml)) (v : toml) :
  NoDup (map fst entries) -> In (key, v) entries -> dict_lookup key entries = Some v.
Proof.
  induction entries as [|[k w] entries IH]; simpl; [tauto|].
  intros Hnodup Hin. inversion Hnodup as [|? ? Hk Hrest]; subst.
  destruct (PyStr.eqb k key) eqn:E.
  - apply eqb_eq in E as ->. destruct Hin as [Hin | Hin]; [congruence|].
    exfalso. apply Hk. now apply (in_map fst) in Hin.
  - apply eqb_neq in E. destruct Hin as [Hin | Hin]; [congruence | auto].
Qed.

(** The order of the keys of a mapping does not matter to a lookup. *)
Lemma dict_lookup_permutation (key : str) (entries entries' : list (str * toml)) :
  NoDup (map fst entries) ->
  Permutation entries entries' ->
  dict_lookup key entries' = dict_lookup key entries.
Proof.
  intros Hnodup Hperm.
  assert (NoDup (map fst entries')) as Hnodup'
    by (eapply Permutation_NoDup; [apply Permutation_map; eassumption | assumption]).
  destruct (dict_lookup key entries) as [v|] eqn:E.
  - apply in_dict_lookup; [assumption|].
    eapply Permutation_in; [eassumption|]. now apply dict_lookup_in.
  - apply dict_lookup_none. apply dict_lookup_none in E. intros Hin. apply E.
    eapply Permutation_in; [|eassumption].
    apply Permutation_map. now apply Permutation_sym.
Qed.

(** ** Version precedence *)

Lemma dropwhile_last (A : Type) (p : A -> bool) (l : list A) (x : A) :
  Version.dropwhile p (l ++ [x])
  = match Version.dropwhile p l with
    | [] => if p x then [] else [x]
    | _ :: _ => Version.dropwhile p l ++ [x]
    end.
Proof.
  induction l as [|y l IH]; simpl.
  - reflexivity.
  - destruct (p y); [exact IH | reflexivity].
Qed.

Lemma significant_cons (u : N) (numbers : list N) :
  significant (u :: numbers)
  = match significant numbers with
    | [] => if (0 =? u)%N then [] else [u]
    | _ :: _ => u :: significant numbers
    end.
Proof.
  unfold significant. simpl rev. rewrite dropwhile_last.
  destruct (Version.dropwhile (N.eqb 0) (rev numbers)) as [|y l] eqn:E.
  - destruct (0 =? u)%N; reflexivity.
  - rewrite rev_app_distr. change (rev [u]) with [u]. cbn [app].
    destruct (rev (y :: l)) eqn:E'; [|reflexivity].
    apply (f_equal (@length N)) in E'. rewrite length_rev in E'. discriminate.
Qed.

Lemma componentwise_compare_cons (u v : N) (x y : list N) :
  componentwise_compare (u :: x) (v :: y)
  = Version.then_compare (u ?= v)%N (componentwise_compare x y).
Proof. unfold componentwise_compare, pad, Version.then_compare. simpl. reflexivity. Qed.

Lemma componentwise_compare_nil_l (v : N) (y : list N) :
  componentwise_compare [] (v :: y)
  = Version.then_compare (0 ?= v)%N (componentwise_compare [] y).
Proof.
  unfold componentwise_compare, pad, Version.then_compare. simpl.
  rewrite Nat.sub_0_r. reflexivity.
Qed.

Lemma componentwise_compare_nil_r (u : N) (x : list N) :
  componentwise_compare (u :: x) []
  = Version.then_compare (u ?= 0)%N (componentwise_compare x []).
Proof.
  unfold componentwise_compare, pad, Version.then_compare. simpl.
  rewrite Nat.max_0_r, Nat.sub_0_r. reflexivity.
Qed.

Lemma significant_nil_l (y : list N) :
  Version.tuple_compare N.compare [] (significant y) = componentwise_compare [] y.
Proof.
  induction y as [|v y IH]; [reflexivity|].
  rewrite componentwise_compare_nil_l, <- IH, significant_cons.
  destruct (significant y) as [|w sy]; simpl.
  - destruct v; reflexivity.
  - destruct v; reflexivity.
Qed.

Lemma significant_nil_r (x : list N) :
  Version.tuple_compare N.compare (significant x) [] = componentwise_compare x [].
Proof.
  induction x as [|u x IH]; [reflexivity|].
  rewrite componentwise_compare_nil_r, <- IH, significant_cons.
  destruct (significant x) as [|w sx]; simpl.
  - destruct u; reflexivity.
  - destruct u; reflexivity.
Qed.

(** Comparing the release numbers without their trailing zeros, the shorter
    tuple first, is comparing them component by component with the shorter
    release padded with zeros. *)
Lemma significant_compare (x y : list N) :
  Version.tuple_compare N.compare (significant x) (significant y)
  = componentwise_compare x y.
Proof.
  revert y; induction x as [|u x IH]; intros y.
  - apply significant_nil_l.
  - destruct y as [|v y]; [apply significant_nil_r|].
    rewrite componentwise_compare_cons, <- IH, !significant_cons.
    destruct (significant x) as [|a sx], (significant y) as [|b sy]; simpl.
    + destruct u as [|u], v as [|v]; reflexivity.
    + destruct u as [|u]; simpl; [destruct v|]; reflexivity.
    + destruct v as [|v]; simpl; [destruct u|]; reflexivity.
    + reflexivity.
Qed.

(** [v >= Version(numbers)] for a final release [numbers], spelled out. *)
Lemma ge_final (v : Version.t) (numbers : list N) :
  Version.ge v (Version.final numbers) = true <-> at_least_final numbers v.
Proof.
  unfold Version.ge, Version.key_compare, at_least_final. simpl.
  fold (significant (Version.release v)). fold (significant numbers).
  rewrite significant_compare.
  destruct v as [e r p q d l]; simpl.
  destruct (N.compare_spec e 0) as [He | He | He]; simpl.
  - destruct (componentwise_compare r numbers); simpl.
    + destruct p as [p|], q as [q|], d as [d|], l as [l|]; simpl;
        (split; [intros H; right; split; [assumption|] | intros H]);
        try (right; conjunctions; auto; try (left; discriminate); fail);
        try reflexivity;
        try discriminate;
        destruct H as [H | (_ & [H | (_ & Hp & [Hq | Hd])])];
        try discriminate; try congruence; try lia.
    + split; [discriminate|].
      intros [H | (_ & [H | (H & _)])]; try discriminate; lia.
    + split; [intros _; right; auto | reflexivity].
  - lia.
  - split; [intros _; left; lia | reflexivity].
Qed.

(** ** Splitting on whitespace *)

Lemma split_from_blank (s word : str) :
  blank s ->
  PyStr.split_from word s = match word with [] => [] | _ :: _ => [word] end.
Proof.
  intros Hs; revert word; induction Hs as [|c s Hc Hs IH]; intros word; simpl.
  - reflexivity.
  - rewrite Hc. destruct word; rewrite IH; reflexivity.
Qed.

(** A whitespace character ends the word before it; what follows is split
    on its own. *)
Lemma split_from_space (s t word : str) (c : char) :
  PyStr.isspace c = true ->
  PyStr.split_from word (s ++ c :: t)
  = PyStr.split_from word s ++ PyStr.split_from [] t.
Proof.
  intros Hc; revert word; induction s as [|d s IH]; intros word; simpl.
  - rewrite Hc. destruct word; reflexivity.
  - destruct (PyStr.isspace d).
    + destruct word; rewrite IH; reflexivity.
    + apply IH.
Qed.

Lemma split_from_word (token word : str) :
  Forall (fun c => PyStr.isspace c = false) token ->
  PyStr.split_from word token
  = match word ++ token with [] => [] | _ :: _ => [word ++ token] end.
Proof.
  intros Ht; revert word; induction Ht as [|c token Hc Ht IH]; intros word; simpl.
  - rewrite app_nil_r. reflexivity.
  - rewrite Hc, IH, <- app_assoc. reflexivity.
Qed.

(** The index [-1] selects the last item. *)
Lemma list_getitem_last (A : Type) (l : list A) (x : A) :
  list_getitem (l ++ [x]) (-1) = Return x.
Proof.
  unfold list_getitem. rewrite length_app. simpl length.
  change (-1 <? 0)%Z with true. cbv iota.
  replace (-1 + Z.of_nat (length l + 1))%Z with (Z.of_nat (length l)) by lia.
  replace (Z.of_nat (length l) <? 0)%Z with false by (symmetry; apply Z.ltb_ge; lia).
  replace (Z.of_nat (length l + 1) <=? Z.of_nat (length l))%Z with false
    by (symmetry; apply Z.leb_gt; lia).
  simpl orb. cbv iota. rewrite Nat2Z.id.
  rewrite nth_error_app2 by lia. rewrite Nat.sub_diag. reflexivity.
Qed.

Lemma list_getitem_empty (A : Type) : list_getitem (@nil A) (-1) = Raise IndexError.
Proof. reflexivity. Qed.

(** The last item of the split output is its final token. *)
Lemma final_token_split (output token : str) :
  final_token output token ->
  exists front, PyStr.split output = front ++ [token].
Proof.
  intros (before & after & -> & Hne & Htoken & Hafter & Hbefore).
  unfold PyStr.split.
  assert (exists front, PyStr.split_from [] (before ++ token) = front ++ [token])
    as [front Hfront].
  { destruct Hbefore as [-> | (b & c & -> & Hc)].
    - exists []. simpl. rewrite (split_from_word [] Htoken). simpl.
      destruct token; [congruence | reflexivity].
    - exists (PyStr.split_from [] b).
      rewrite <- app_assoc. simpl. rewrite split_from_space by assumption.
      rewrite (split_from_word [] Htoken). simpl.
      destruct token; [congruence | reflexivity]. }
  destruct Hafter as [|c after Hc Hafter].
  - exists front. now rewrite app_nil_r.
  - exists front. rewrite app_assoc, split_from_space by assumption.
    rewrite Hfront, (split_from_blank [] Hafter). now rewrite app_nil_r.
Qed.

(** Every output is blank or has a final token. *)
Lemma blank_or_final_token (output : str) :
  blank output \/ exists token, final_token output token.
Proof.
  induction output as [|c output IH] using rev_ind.
  - left. constructor.
  - destruct (PyStr.isspace c) eqn:Hc.
    + destruct IH as [Hblank | (token & before & after & -> & Hne & Ht & Ha & Hb)].
      * left. apply Forall_app. split; [assumption | now constructor].
      * right. exists token, before, (after ++ [c]).
        rewrite <- !app_assoc. conjunctions; try assumption; try reflexivity.
        apply Forall_app. split; [assumption | now constructor].
    + right.
      destruct IH as [Hblank | (token & before & after & -> & Hne & Ht & Ha & Hb)].
      * exists [c], output, []. conjunctions.
        -- reflexivity.
        -- discriminate.
        -- now constructor.
        -- constructor.
        -- destruct output as [|d output _] using rev_ind; [now left | right].
           exists output, d. split; [reflexivity|].
           apply Forall_app in Hblank as [_ Hd]. now inversion Hd.
      * destruct after as [|d after _] using rev_ind.
        -- exists (token ++ [c]), before, []. conjunctions.
           ++ now rewrite !app_nil_r, <- app_assoc.
           ++ destruct token; discriminate.
           ++ apply Forall_app. split; [assumption | now constructor].
           ++ constructor.
           ++ assumption.
        -- exists [c], (before ++ token ++ after ++ [d]), []. conjunctions.
           ++ reflexivity.
           ++ discriminate.
           ++ now constructor.
           ++ constructor.
           ++ right. exists (before ++ token ++ after), d.
              split; [now rewrite <- !app_assoc|].
              apply Forall_app in Ha as [_ Hd]. now inversion Hd.
Qed.

Lemma blank_split (output : str) : blank output -> PyStr.split output = [].
Proof. intros H. unfold PyStr.split. now rewrite (split_from_blank [] H). Qed.

(** An output is blank exactly when no character of it is visible. *)
Lemma not_blank_visible (output : str) :
  ~ blank output <-> exists c, In c output /\ PyStr.isspace c = false.
Proof.
  unfold blank. rewrite <- Exists_Forall_neg by (intros c; destruct (PyStr.isspace c); auto).
  rewrite Exists_exists. split; intros (c & Hin & Hc); exists c; split; trivial.
  - now destruct (PyStr.isspace c).
  - congruence.
Qed.

(** ** The state of an adapter *)

Lemma write_stderr_app (x y : str) (st : Poetry.State) :
  Poetry.write_stderr (x ++ y) st = Poetry.write_stderr y (Poetry.write_stderr x st).
Proof. unfold Poetry.write_stderr; simpl. now rewrite app_assoc. Qed.

Lemma write_stderr_nil (st : Poetry.State) : Poetry.write_stderr [] st = st.
Proof. destruct st; unfold Poetry.write_stderr; simpl. now rewrite app_nil_r. Qed.

(** The generator keeps the lines that are no warnings and prints the
    others, each followed by the newline of [print]. *)
Lemma _stripwarnings_run (lines : list str) (st : Poetry.State) :
  Poetry._stripwarnings lines st
  = (Return (filter (fun line => negb (is_warning line)) lines),
     Poetry.write_stderr
       (concat (map (fun line => line ++ [10%N]) (filter is_warning lines))) st).
Proof.
  revert st; induction lines as [|line lines IH]; intros st.
  - simpl. now rewrite write_stderr_nil.
  - cbn [Poetry._stripwarnings filter].
    change (PyStr.startswith line (lit "Warning:")) with (is_warning line).
    destruct (is_warning line); cbn [negb map concat].
    + unfold Poetry.bind, Poetry.print_stderr. rewrite IH.
      now rewrite (write_stderr_app (line ++ [10%N])).
    + unfold Poetry.bind. rewrite IH. reflexivity.
Qed.

(** The [config] property: the stored object when there is one, else a
    new one, which is stored when its initialisation succeeds. *)
Lemma config_run (env : Environment) (st : Poetry.State) :
  Poetry.config env st
  = match Poetry._config (Poetry.self st) with
    | Some c => (Return c, st)
    | None =>
        match Config.__init__ env (Poetry.constructed st) (cwd env) with
        | Return c => (Return c, Poetry.store__config c (Poetry.bump_constructed st))
        | Raise e => (Raise e, st)
        end
    end.
Proof.
  unfold Poetry.config, Poetry.bind, Poetry.get__config, Poetry.new_Config.
  destruct (Poetry._config (Poetry.self st)); [reflexivity|].
  destruct (Config.__init__ env (Poetry.constructed st) (cwd env)); reflexivity.
Qed.

(** An access leaves the session, the diagnostics and the executed
    commands alone. *)
Lemma config_frame (env : Environment) (st : Poetry.State) :
  let st' := snd (Poetry.config env st) in
  Poetry.session (Poetry.self st') = Poetry.session (Poetry.self st)
  /\ Poetry.sys_stderr st' = Poetry.sys_stderr st
  /\ Poetry.executed st' = Poetry.executed st.
Proof.
  rewrite config_run.
  destruct (Poetry._config (Poetry.self st)); simpl; [auto|].
  destruct (Config.__init__ env (Poetry.constructed st) (cwd env)); simpl; auto.
Qed.

(** After a successful access the adapter holds the object it returned. *)
Lemma config_stores (env : Environment) (st st' : Poetry.State) (c : Config.t) :
  Poetry.config env st = (Return c, st') ->
  Poetry._config (Poetry.self st') = Some c.
Proof.
  rewrite config_run.
  destruct (Poetry._config (Poetry.self st)) eqn:E.
  - intros H; injection H as <- <-. exact E.
  - destruct (Config.__init__ env (Poetry.constructed st) (cwd env));
      intros H; [injection H as <- <-; reflexivity | discriminate].
Qed.

(** [Poetry.export] is its two parts in sequence. *)
Lemma export_split (env : Environment) (groups : option (list str)) (st : Poetry.State) :
  Poetry.export env groups st
  = Poetry.bind (export_args env groups) export_finish st.
Proof.
  unfold Poetry.export, export_args, export_finish, export_command,
    Poetry.bind, Poetry.lift, Poetry.ret.
  destruct (Poetry.config env st) as [[cfg|e] st1]; [|reflexivity].
  destruct (Config.extras cfg) as [extras|e]; [|reflexivity].
  destruct (Poetry.truthy groups); [reflexivity|].
  destruct (Poetry.config env st1) as [[cfg'|e] st2]; [|reflexivity].
  destruct (Config.is_compatible_with_group_deps env) as [[|]|e]; reflexivity.
Qed.

Lemma export_finish_run (args : list str) (st : Poetry.State) :
  export_finish args st
  = let st' := Poetry.record_command (export_command args) st in
    match run_always (Poetry.session (Poetry.self st)) (export_command args) with
    | Raise e => (Raise e, st')
    | Return None => (Raise (CommandSkippedError export_skipped), st')
    | Return (Some NotText) => (Raise AssertionError, st')
    | Return (Some (Text output)) =>
        let lines := PyStr.splitlines output true in
        (Return (concat (filter (fun line => negb (is_warning line)) lines)),
         Poetry.write_stderr
           (concat (map (fun line => line ++ [10%N]) (filter is_warning lines))) st')
    end.
Proof.
  unfold export_finish, Poetry.bind, Poetry.session_run_always.
  destruct (run_always (Poetry.session (Poetry.self st)) (export_command args))
    as [[[output|]|]|e]; [| reflexivity | reflexivity | reflexivity].
  unfold Poetry.lift, assert_str.
  rewrite _stripwarnings_run. unfold Poetry.ret. now rewrite join_empty.
Qed.

(** The command line [Poetry.export] builds. *)
Lemma export_args_run (env : Environment) (groups : option (list str)) (st : Poetry.State) :
  export_args env groups st
  = match Poetry.config env st with
    | (Raise e, st1) => (Raise e, st1)
    | (Return cfg, st1) =>
        match Config.extras cfg with
        | Raise e => (Raise e, st1)
        | Return extras =>
            if Poetry.truthy groups then
              (Return (export_prefix extras
                       ++ map (fun group => lit "--only=" ++ group) (Poetry.elements groups)),
               st1)
            else
              match Config.is_compatible_with_group_deps env with
              | Raise e => (Raise e, st1)
              | Return true => (Return (export_prefix extras ++ [lit "--with=dev"]), st1)
              | Return false => (Return (export_prefix extras ++ [lit "--dev"]), st1)
              end
        end
    end.
Proof.
  unfold export_args, Poetry.bind at 1.
  destruct (Poetry.config env st) as [[cfg|e] st1] eqn:Hcfg; [|reflexivity].
  unfold Poetry.bind at 1, Poetry.lift at 1.
  destruct (Config.extras cfg) as [extras|e]; [|reflexivity].
  destruct (Poetry.truthy groups); [reflexivity|].
  unfold Poetry.bind, Poetry.lift, Poetry.ret.
  rewrite config_run, (config_stores _ _ Hcfg).
  destruct (Config.is_compatible_with_group_deps env) as [[|]|e]; reflexivity.
Qed.

Lemma export_args_frame (env : Environment) (groups : option (list str)) (st : Poetry.State) :
  let st1 := snd (export_args env groups st) in
  Poetry.session (Poetry.self st1) = Poetry.session (Poetry.self st)
  /\ Poetry.sys_stderr st1 = Poetry.sys_stderr st
  /\ Poetry.executed st1 = Poetry.executed st.
Proof.
  rewrite export_args_run.
  pose proof (config_frame env st) as H.
  destruct (Poetry.config env st) as [[cfg|e] st1]; simpl in H |- *; [|exact H].
  destruct (Config.extras cfg); [|exact H].
  destruct (Poetry.truthy groups); [exact H|].
  destruct (Config.is_compatible_with_group_deps env) as [[|]|]; exact H.
Qed.

Lemma not_ran_nothing (A : Type) (l : list A) (x : A) : l <> l ++ [x].
Proof.
  intros H. apply (f_equal (@length A)) in H.
  rewrite length_app in H. simpl in H. lia.
Qed.

Section ExportRan.

Variables (env : Environment) (groups : option (list str)).
Variables (st st' : Poetry.State) (r : result str) (command : Command).
Hypothesis Hexport : Poetry.export env groups st = (r, st').
Hypothesis Hran : ran st st' command.

(** When [Poetry.export] has handed a command to the session, the first
    part succeeded and the command carries the line it built. *)
Lemma export_ran :
  exists args st1,
    export_args env groups st = (Return args, st1)
    /\ command = export_command args
    /\ Poetry.session (Poetry.self st1) = Poetry.session (Poetry.self st)
    /\ Poetry.sys_stderr st1 = Poetry.sys_stderr st
    /\ export_finish args st1 = (r, st').
Proof.
  pose proof Hexport as Hsplit. pose proof Hran as Hlast. unfold ran in Hlast.
  rewrite export_split in Hsplit. unfold Poetry.bind in Hsplit.
  pose proof (export_args_frame env groups st) as (Hs & He & Hx).
  destruct (export_args env groups st) as [[args|e] st1]; simpl in Hs, He, Hx.
  - exists args, st1. conjunctions; try assumption; try reflexivity.
    rewrite export_finish_run in Hsplit.
    assert (Poetry.executed st' = Poetry.executed st1 ++ [export_command args]) as H.
    { destruct (run_always (Poetry.session (Poetry.self st1)) (export_command args))
        as [[[output|]|]|e]; injection Hsplit as _ <-; reflexivity. }
    rewrite Hlast, Hx in H. now apply app_inj_tail in H as [_ H].
  - injection Hsplit as _ <-. rewrite Hx in Hlast.
    now apply not_ran_nothing in Hlast.
Qed.

End ExportRan.

(** [Poetry.build] coerces its argument, hands the command to the session
    and takes the last token of what comes back. *)
Lemma build_run (format : Poetry.format_arg) (st : Poetry.State) :
  Poetry.build format st
  = match coerce format with
    | Raise e => (Raise e, st)
    | Return f =>
        let st' := Poetry.record_command (build_command f) st in
        match run_always (Poetry.session (Poetry.self st)) (build_command f) with
        | Raise e => (Raise e, st')
        | Return None => (Raise (CommandSkippedError build_skipped), st')
        | Return (Some NotText) => (Raise AssertionError, st')
        | Return (Some (Text output)) => (list_getitem (PyStr.split output) (-1), st')
        end
    end.
Proof.
  unfold Poetry.build, Poetry.bind at 1.
  assert (match format with
          | Poetry.Member f => Poetry.ret f
          | Poetry.Plain s => Poetry.lift (Poetry.DistributionFormat_of_value s)
          end st = (coerce format, st)) as ->.
  { destruct format; reflexivity. }
  destruct (coerce format) as [f|e]; [|reflexivity].
  unfold Poetry.bind, Poetry.session_run_always. fold (build_command f).
  destruct (run_always (Poetry.session (Poetry.self st)) (build_command f))
    as [[[output|]|]|e]; reflexivity.
Qed.

Section BuildRan.

Variables (format : Poetry.format_arg).
Variables (st st' : Poetry.State) (r : result str) (command : Command).
Hypothesis Hbuild : Poetry.build format st = (r, st').
Hypothesis Hran : ran st st' command.

(** When [Poetry.build] has handed a command to the session, the format
    was accepted and the result is decided by the answer of the session. *)
Lemma build_ran :
  exists f,
    coerce format = Return f
    /\ command = build_command f
    /\ r = match run_always (Poetry.session (Poetry.self st)) command with
           | Raise e => Raise e
           | Return None => Raise (CommandSkippedError build_skipped)
           | Return (Some NotText) => Raise AssertionError
           | Return (Some (Text output)) => list_getitem (PyStr.split output) (-1)
           end.
Proof.
  pose proof Hbuild as Hrun. pose proof Hran as Hlast. unfold ran in Hlast.
  rewrite build_run in Hrun.
  destruct (coerce format) as [f|e].
  - exists f. split; [reflexivity|].
    assert (Poetry.executed st' = Poetry.executed st ++ [build_command f]) as H.
    { destruct (run_always (Poetry.session (Poetry.self st)) (build_command f))
        as [[[output|]|]|e]; injection Hrun as _ <-; reflexivity. }
    rewrite Hlast in H. apply app_inj_tail in H as [_ ->].
    split; [reflexivity|].
    destruct (run_always (Poetry.session (Poetry.self st)) (build_command f))
      as [[[output|]|]|e]; now injection Hrun as <- _.
  - injection Hrun as _ <-. now apply not_ran_nothing in Hlast.
Qed.

End BuildRan.

(** ** The export command line *)

Lemma export_prefix_no_only (extras : list str) :
  filter (fun arg => PyStr.startswith arg (lit "--only=")) (export_prefix extras) = [].
Proof.
  unfold export_prefix.
  change (filter (fun arg => PyStr.startswith arg (lit "--only="))
            (map (fun extra => lit "--extras=" ++ extra) extras
             ++ [lit "--without-hashes"]) = []).
  induction extras as [|extra extras IH]; [reflexivity | exact IH].
Qed.

Lemma only_flags_kept (groups : list str) :
  filter (fun arg => PyStr.startswith arg (lit "--only="))
    (map (fun group => lit "--only=" ++ group) groups)
  = map (fun group => lit "--only=" ++ group) groups.
Proof.
  induction groups as [|group groups IH]; [reflexivity|].
  cbn [map filter].
  change (PyStr.startswith (lit "--only=" ++ group) (lit "--only=")) with true.
  cbv iota. now rewrite IH.
Qed.

(** Neither the fixed part nor an [--only] flag is one of the two flags
    that select the development dependencies. *)
Lemma no_dev_flag (extras groups : list str) (flag : str) :
  flag = lit "--dev" \/ flag = lit "--with=dev" ->
  ~ In flag (export_prefix extras ++ map (fun group => lit "--only=" ++ group) groups).
Proof.
  intros Hflag Hin. apply in_app_or in Hin as [Hin | Hin].
  - unfold export_prefix in Hin.
    apply in_app_or in Hin as [Hin | Hin];
      [| apply in_app_or in Hin as [Hin | Hin]].
    + simpl in Hin. destruct Hflag as [-> | ->]; intuition discriminate.
    + apply in_map_iff in Hin as (extra & Heq & _).
      destruct Hflag as [-> | ->]; discriminate Heq.
    + simpl in Hin. destruct Hflag as [-> | ->]; intuition discriminate.
  - apply in_map_iff in Hin as (group & Heq & _).
    destruct Hflag as [-> | ->]; discriminate Heq.
Qed.

Lemma export_finish_self (args : list str) (st : Poetry.State) :
  Poetry.self (snd (export_finish args st)) = Poetry.self st.
Proof.
  rewrite export_finish_run. cbv zeta.
  destruct (run_always (Poetry.session (Poetry.self st)) (export_command args))
    as [[[output|]|]|e]; reflexivity.
Qed.

Section ExportLine.

Variables (env : Environment) (groups : option (list str)).
Variables (st st' : Poetry.State) (r : result str) (command : Command).
Hypothesis Hexport : Poetry.export env groups st = (r, st').
Hypothesis Hran : ran st st' command.

(** The command [Poetry.export] hands over: the fixed part for the extras
    of the stored configuration, then the [--only] flags of the groups,
    or else the flag the installed version calls for. *)
Lemma export_ran_line :
  exists cfg extras selection,
    Poetry._config (Poetry.self st') = Some cfg
    /\ Config.extras cfg = Return extras
    /\ command = export_command (export_prefix extras ++ selection)
    /\ ((Poetry.truthy groups = true
         /\ selection = map (fun group => lit "--only=" ++ group) (Poetry.elements groups))
        \/ (Poetry.truthy groups = false
            /\ exists installed,
                poetry_installed env = Return installed
                /\ selection
                   = [if Version.ge installed Config.MINIMUM_VERSION_SUPPORTING_GROUP_DEPS
                      then lit "--with=dev" else lit "--dev"])).
Proof.
  destruct (@export_ran _ _ _ _ _ _ Hexport Hran) as (argv & st1 & Hargs & -> & _ & _ & Hfinish).
  pose proof (export_finish_self argv st1) as Hself.
  rewrite Hfinish in Hself. simpl in Hself. rewrite Hself.
  rewrite export_args_run in Hargs.
  destruct (Poetry.config env st) as [[cfg|e] st0] eqn:Hcfg; [|discriminate].
  apply config_stores in Hcfg.
  destruct (Config.extras cfg) as [extras|e] eqn:Hextras; [|discriminate].
  exists cfg, extras.
  destruct (Poetry.truthy groups).
  - exists (map (fun group => lit "--only=" ++ group) (Poetry.elements groups)).
    conjunctions; [congruence | exact Hextras | congruence | now left].
  - unfold Config.is_compatible_with_group_deps, Config.version, and_then in Hargs.
    destruct (poetry_installed env) as [installed|e]; [|discriminate].
    exists [if Version.ge installed Config.MINIMUM_VERSION_SUPPORTING_GROUP_DEPS
            then lit "--with=dev" else lit "--dev"].
    assert (st0 = st1
            /\ argv = export_prefix extras
                      ++ [if Version.ge installed Config.MINIMUM_VERSION_SUPPORTING_GROUP_DEPS
                          then lit "--with=dev" else lit "--dev"]) as [<- ->].
    { destruct (Version.ge installed Config.MINIMUM_VERSION_SUPPORTING_GROUP_DEPS);
        split; congruence. }
    conjunctions; [exact Hcfg | exact Hextras | reflexivity |].
    right. split; [reflexivity|]. now exists installed.
Qed.

End ExportLine.

(** ** The life of the configuration *)

(** [Poetry.export] touches the stored configuration the way its first
    access to [config] does. *)
Lemma export_config_effect (env : Environment) (groups : option (list str))
    (st : Poetry.State) :
  Poetry._config (Poetry.self (snd (Poetry.export env groups st)))
  = Poetry._config (Poetry.self (snd (Poetry.config env st)))
  /\ Poetry.constructed (snd (Poetry.export env groups st))
     = Poetry.constructed (snd (Poetry.config env st)).
Proof.
  rewrite export_split. unfold Poetry.bind. rewrite export_args_run.
  destruct (Poetry.config env st) as [[cfg|e] st1]; simpl; [|auto].
  assert (forall args, Poetry._config (Poetry.self (snd (export_finish args st1)))
                       = Poetry._config (Poetry.self st1)
                       /\ Poetry.constructed (snd (export_finish args st1))
                          = Poetry.constructed st1) as Hfinish.
  { intros args. rewrite export_finish_run. cbv zeta.
    destruct (run_always (Poetry.session (Poetry.self st1)) (export_command args))
      as [[[output|]|]|e]; simpl; auto. }
  destruct (Config.extras cfg) as [extras|e]; simpl; [|auto].
  destruct (Poetry.truthy groups); [apply Hfinish|].
  destruct (Config.is_compatible_with_group_deps env) as [[|]|e]; simpl; auto;
    apply Hfinish.
Qed.

Lemma build_config_effect (format : Poetry.format_arg) (st : Poetry.State) :
  Poetry._config (Poetry.self (snd (Poetry.build format st)))
  = Poetry._config (Poetry.self st)
  /\ Poetry.constructed (snd (Poetry.build format st)) = Poetry.constructed st.
Proof.
  rewrite build_run. destruct (coerce format) as [f|e]; simpl; [|auto].
  destruct (run_always (Poetry.session (Poetry.self st)) (build_command f))
    as [[[output|]|]|e]; simpl; auto.
Qed.

(** Once stored, the configuration stays, and nothing more is
    constructed. *)
Lemma perform_keeps_config (c : call) (st : Poetry.State) (cfg : Config.t) :
  Poetry._config (Poetry.self st) = Some cfg ->
  Poetry._config (Poetry.self (perform c st)) = Some cfg
  /\ Poetry.constructed (perform c st) = Poetry.constructed st.
Proof.
  intros Hcfg.
  assert (forall env, snd (Poetry.config env st) = st) as Hconfig
    by (intros env; rewrite config_run, Hcfg; reflexivity).
  destruct c as [env | env groups | format]; simpl.
  - now rewrite Hconfig.
  - destruct (export_config_effect env groups st) as [-> ->]. now rewrite Hconfig.
  - destruct (build_config_effect format st) as [-> ->]. auto.
Qed.

Lemma perform_all_keeps_config (calls : list call) (st : Poetry.State) (cfg : Config.t) :
  Poetry._config (Poetry.self st) = Some cfg ->
  Poetry._config (Poetry.self (perform_all calls st)) = Some cfg
  /\ Poetry.constructed (perform_all calls st) = Poetry.constructed st.
Proof.
  revert st; induction calls as [|c calls IH]; intros st Hcfg; simpl; [auto|].
  destruct (perform_keeps_config c st Hcfg) as [Hc Hn].
  destruct (IH _ Hc) as [Hc' Hn']. split; congruence.
Qed.

(** Before a configuration is stored none has been constructed since the
    adapter was made, and afterwards exactly one. *)
Lemma perform_all_constructs_once (calls : list call) (st : Poetry.State) :
  Poetry._config (Poetry.self st) = None ->
  let st' := perform_all calls st in
  (Poetry._config (Poetry.self st') = None
   /\ Poetry.constructed st' = Poetry.constructed st)
  \/ (exists cfg, Poetry._config (Poetry.self st') = Some cfg
      /\ Config.id cfg = Poetry.constructed st
      /\ Poetry.constructed st' = S (Poetry.constructed st)).
Proof.
  revert st; induction calls as [|c calls IH]; intros st Hnone; simpl; [auto|].
  assert (forall env,
            (Poetry._config (Poetry.self (snd (Poetry.config env st))) = None
             /\ Poetry.constructed (snd (Poetry.config env st)) = Poetry.constructed st)
            \/ (exists cfg,
                   Poetry._config (Poetry.self (snd (Poetry.config env st))) = Some cfg
                   /\ Config.id cfg = Poetry.constructed st
                   /\ Poetry.constructed (snd (Poetry.config env st))
                      = S (Poetry.constructed st))) as Hconfig.
  { intros env. rewrite config_run, Hnone.
    unfold Config.__init__, and_then.
    destruct (parse_file env (cwd env ++ [lit "pyproject.toml"])) as [data|e];
      [|now left].
    destruct (getitem data (lit "tool")) as [tool|e]; [|now left].
    destruct (getitem tool (lit "poetry")) as [poetry|e]; [|now left].
    right. eexists. simpl. auto. }
  assert ((Poetry._config (Poetry.self (perform c st)) = None
           /\ Poetry.constructed (perform c st) = Poetry.constructed st)
          \/ (exists cfg, Poetry._config (Poetry.self (perform c st)) = Some cfg
              /\ Config.id cfg = Poetry.constructed st
              /\ Poetry.constructed (perform c st) = S (Poetry.constructed st)))
    as [[Hc Hn] | (cfg & Hc & Hid & Hn)].
  { destruct c as [env | env groups | format]; simpl.
    - apply Hconfig.
    - destruct (export_config_effect env groups st) as [-> ->]. apply Hconfig.
    - destruct (build_config_effect format st) as [-> ->]. now left. }
  - destruct (IH _ Hc) as [[Hc' Hn'] | (cfg & Hc' & Hid & Hn')].
    + left. split; congruence.
    + right. exists cfg. conjunctions; congruence.
  - right. exists cfg. destruct (perform_all_keeps_config calls _ Hc) as [Hc' Hn'].
    conjunctions; congruence.
Qed.

(** ** What an export and a build do, from what they are given *)

(** The formats [Poetry.build] accepts. *)
Lemma coerce_accepts (format : Poetry.format_arg) (f : DistributionFormat) :
  format = Poetry.Member f \/ format = Poetry.Plain (Poetry.value f) ->
  coerce format = Return f.
Proof. intros [-> | ->]; [reflexivity | now destruct f]. Qed.

Section ExportGiven.

Variables (env : Environment) (groups : option (list str)).
Variables (st st1 : Poetry.State) (cfg : Config.t) (extras selection : list str).
Hypothesis Hcfg : Poetry.config env st = (Return cfg, st1).
Hypothesis Hextras : Config.extras cfg = Return extras.
Hypothesis Hselection : selected env groups selection.

(** With the configuration at hand, its extras readable and the selection
    decided, the first part of [Poetry.export] builds the command line and
    leaves the session, the diagnostics and the executed commands alone. *)
Lemma export_line :
  export_args env groups st = (Return (export_prefix extras ++ selection), st1)
  /\ Poetry.session (Poetry.self st1) = Poetry.session (Poetry.self st)
  /\ Poetry.sys_stderr st1 = Poetry.sys_stderr st
  /\ Poetry.executed st1 = Poetry.executed st
  /\ Poetry._config (Poetry.self st1) = Some cfg.
Proof.
  pose proof (config_frame env st) as (Hs & He & Hx).
  rewrite Hcfg in Hs, He, Hx. simpl in Hs, He, Hx.
  conjunctions; try assumption; [|exact (config_stores _ _ Hcfg)].
  rewrite export_args_run, Hcfg, Hextras.
  destruct Hselection as [(g & gs & -> & ->) | (Hgroups & installed & Hinstalled & ->)].
  - reflexivity.
  - assert (Poetry.truthy groups = false) as ->
      by (destruct Hgroups as [-> | ->]; reflexivity).
    unfold Config.is_compatible_with_group_deps, Config.version, and_then.
    rewrite Hinstalled.
    now destruct (Version.ge installed Config.MINIMUM_VERSION_SUPPORTING_GROUP_DEPS).
Qed.

(** [Poetry.export] then hands exactly that command to the session,
    whatever the session answers, and keeps the configuration. *)
Lemma export_hands_over :
  ran st (snd (Poetry.export env groups st))
    (export_command (export_prefix extras ++ selection))
  /\ Poetry._config (Poetry.self (snd (Poetry.export env groups st))) = Some cfg.
Proof.
  destruct export_line as (Hargs & _ & _ & Hx & Hstored).
  rewrite export_split. unfold Poetry.bind. rewrite Hargs.
  pose proof (export_finish_self (export_prefix extras ++ selection) st1) as Hself.
  rewrite export_finish_run in Hself |- *. cbv zeta in Hself |- *. unfold ran.
  destruct (run_always (Poetry.session (Poetry.self st1))
              (export_command (export_prefix extras ++ selection)))
    as [[[output|]|]|e]; simpl in Hself |- *; rewrite ?Hself, Hx; auto.
Qed.

(** When the session answers with a text, [Poetry.export] returns it
    without its warning lines and prints those. *)
Lemma export_given_output (output : str) :
  run_always (Poetry.session (Poetry.self st))
    (export_command (export_prefix extras ++ selection)) = Return (Some (Text output)) ->
  Poetry.export env groups st
  = (Return (strip_warnings output),
     Poetry.write_stderr
       (concat (map (fun line => line ++ newline) (warnings_of output)))
       (Poetry.record_command (export_command (export_prefix extras ++ selection)) st1)).
Proof.
  intros Hout. destruct export_line as (Hargs & Hs & _).
  rewrite export_split. unfold Poetry.bind. rewrite Hargs.
  rewrite export_finish_run, Hs, Hout. reflexivity.
Qed.

End ExportGiven.

(** ** The properties of the specification *)

(** C1: with the configuration at hand and its extras readable, [export]
    hands one command to the session.  When [groups] is supplied and not
    empty, its command line has one [--only=<group>] flag per group, in the
    order given and at its end, and has neither [--dev] nor [--with=dev];
    when [groups] is absent or empty, the command line ends with
    [--with=dev] if the installed version is at least 1.2.0 and with
    [--dev] otherwise. *)
Theorem C1_group_selection (env : Environment) (groups : option (list str))
    (st st1 : Poetry.State) (cfg : Config.t) (extras : list str) :
  Poetry.config env st = (Return cfg, st1) ->
  Config.extras cfg = Return extras ->
  (forall g gs, groups = Some (g :: gs) ->
     exists command,
       ran st (snd (Poetry.export env groups st)) command
       /\ args command
          = export_prefix extras ++ map (fun group => lit "--only=" ++ group) (g :: gs)
       /\ filter (fun arg => PyStr.startswith arg (lit "--only=")) (args command)
          = map (fun group => lit "--only=" ++ group) (g :: gs)
       /\ ~ In (lit "--dev") (args command)
       /\ ~ In (lit "--with=dev") (args command))
  /\ (groups = None \/ groups = Some [] ->
      forall installed, poetry_installed env = Return installed ->
      exists command flag,
        ran st (snd (Poetry.export env groups st)) command
        /\ args command = export_prefix extras ++ [flag]
        /\ flag = (if Version.ge installed Config.MINIMUM_VERSION_SUPPORTING_GROUP_DEPS
                   then lit "--with=dev" else lit "--dev")
        /\ (at_least_final [1; 2; 0]%N installed -> flag = lit "--with=dev")
        /\ (~ at_least_final [1; 2; 0]%N installed -> flag = lit "--dev")).
Proof.
  intros Hcfg Hextras. split.
  - intros g gs ->.
    assert (selected env (Some (g :: gs))
              (map (fun group => lit "--only=" ++ group) (g :: gs))) as Hselection
      by (left; now exists g, gs).
    destruct (@export_hands_over _ _ _ _ _ _ _ Hcfg Hextras Hselection) as [Hran _].
    eexists. split; [exact Hran|]. cbn [args export_command]. conjunctions.
    + reflexivity.
    + rewrite filter_app, export_prefix_no_only. apply only_flags_kept.
    + apply no_dev_flag. now left.
    + apply no_dev_flag. now right.
  - intros Hgroups installed Hinstalled.
    assert (selected env groups
              [if Version.ge installed Config.MINIMUM_VERSION_SUPPORTING_GROUP_DEPS
               then lit "--with=dev" else lit "--dev"]) as Hselection
      by (right; split; [assumption | now exists installed]).
    destruct (@export_hands_over _ _ _ _ _ _ _ Hcfg Hextras Hselection) as [Hran _].
    eexists. eexists. split; [exact Hran|]. cbn [args export_command].
    pose proof (ge_final installed [1; 2; 0]%N) as Hge.
    change (Version.final [1; 2; 0]%N)
      with Config.MINIMUM_VERSION_SUPPORTING_GROUP_DEPS in Hge.
    conjunctions; try reflexivity.
    + intros Hle. apply Hge in Hle. now rewrite Hle.
    + intros Hlt.
      destruct (Version.ge installed Config.MINIMUM_VERSION_SUPPORTING_GROUP_DEPS);
        [exfalso; apply Hlt; now apply Hge | reflexivity].
Qed.

Lemma C1_group_selection_witness :
  (exists command,
      ran sample_state
        (snd (Poetry.export (sample_env (Version.final [1; 1; 9]%N))
                (Some [lit "test"; lit "lint"]) sample_state))
        command
      /\ args command
         = [lit "poetry"; lit "export"; lit "--format=requirements.txt";
            lit "--extras=pygments"; lit "--extras=docs"; lit "--without-hashes";
            lit "--only=test"; lit "--only=lint"])
  /\ (exists command,
      ran sample_state
        (snd (Poetry.export (sample_env (Version.final [1; 2; 1]%N)) None sample_state))
        command
      /\ args command
         = [lit "poetry"; lit "export"; lit "--format=requirements.txt";
            lit "--extras=pygments"; lit "--extras=docs"; lit "--without-hashes";
            lit "--with=dev"])
  /\ (exists command,
      ran sample_state
        (snd (Poetry.export (sample_env (Version.final [1; 1; 9]%N)) (Some []) sample_state))
        command
      /\ args command
         = [lit "poetry"; lit "export"; lit "--format=requirements.txt";
            lit "--extras=pygments"; lit "--extras=docs"; lit "--without-hashes";
            lit "--dev"]).
Proof.
  conjunctions.
  - destruct (proj1 (@C1_group_selection (sample_env (Version.final [1; 1; 9]%N))
                       (Some [lit "test"; lit "lint"]) sample_state
                       (snd (Poetry.config (sample_env (Version.final [1; 1; 9]%N))
                               sample_state))
                       {| Config.id := 0; Config._config := Table sample_metadata |}
                       [lit "pygments"; lit "docs"] eq_refl eq_refl)
                (lit "test") [lit "lint"] eq_refl)
      as (command & Hran & Hargs & _).
    exists command. split; [exact Hran | exact Hargs].
  - destruct (proj2 (@C1_group_selection (sample_env (Version.final [1; 2; 1]%N))
                       None sample_state
                       (snd (Poetry.config (sample_env (Version.final [1; 2; 1]%N))
                               sample_state))
                       {| Config.id := 0; Config._config := Table sample_metadata |}
                       [lit "pygments"; lit "docs"] eq_refl eq_refl)
                (or_introl eq_refl) (Version.final [1; 2; 1]%N) eq_refl)
      as (command & flag & Hran & Hargs & Hflag & _).
    exists command. split; [exact Hran|]. rewrite Hargs, Hflag. reflexivity.
  - destruct (proj2 (@C1_group_selection (sample_env (Version.final [1; 1; 9]%N))
                       (Some []) sample_state
                       (snd (Poetry.config (sample_env (Version.final [1; 1; 9]%N))
                               sample_state))
                       {| Config.id := 0; Config._config := Table sample_metadata |}
                       [lit "pygments"; lit "docs"] eq_refl eq_refl)
                (or_intror eq_refl) (Version.final [1; 1; 9]%N) eq_refl)
      as (command & flag & Hran & Hargs & Hflag & _).
    exists command. split; [exact Hran|]. rewrite Hargs, Hflag. reflexivity.
Defined.

(** C2: [is_compatible_with_group_deps] answers [True] exactly when the
    installed version is not before 1.2.0 in version precedence, the
    release numbers being compared as numbers, component by component, and
    not as text: [False] for 1.1.9, [True] for 1.2.0, 1.2.1 and 1.10.0,
    [True] for the pre-release 1.3.0-alpha and [False] for a pre-release of
    1.2.0 itself. *)
Theorem C2_group_deps_threshold :
  (forall env installed,
      poetry_installed env = Return installed ->
      exists answer,
        Config.is_compatible_with_group_deps env = Return answer
        /\ (answer = true <-> at_least_final [1; 2; 0]%N installed))
  /\ (forall env numbers,
      poetry_installed env = Return (Version.final numbers) ->
      Config.is_compatible_with_group_deps env
      = Return (match componentwise_compare numbers [1; 2; 0]%N with
                | Lt => false
                | _ => true
                end))
  /\ Config.is_compatible_with_group_deps (sample_env (Version.final [1; 1; 9]%N))
     = Return false
  /\ Config.is_compatible_with_group_deps (sample_env (Version.final [1; 2; 0]%N))
     = Return true
  /\ Config.is_compatible_with_group_deps (sample_env (Version.final [1; 2; 1]%N))
     = Return true
  /\ Config.is_compatible_with_group_deps
       (sample_env (Version.make 0 [1; 3; 0]%N (Some (Version.a, 0%N)) None None None))
     = Return true
  /\ Config.is_compatible_with_group_deps
       (sample_env (Version.make 0 [1; 2; 0]%N (Some (Version.a, 0%N)) None None None))
     = Return false
  /\ (Config.is_compatible_with_group_deps (sample_env (Version.final [1; 10; 0]%N))
      = Return true
      /\ string_compare (lit "1.10.0") (lit "1.2.0") = Lt).
Proof.
  conjunctions; try reflexivity.
  - intros env installed Hinstalled.
    exists (Version.ge installed Config.MINIMUM_VERSION_SUPPORTING_GROUP_DEPS).
    unfold Config.is_compatible_with_group_deps, Config.version, and_then.
    rewrite Hinstalled. split; [reflexivity|]. apply ge_final.
  - intros env numbers Hinstalled.
    unfold Config.is_compatible_with_group_deps, Config.version, and_then.
    rewrite Hinstalled. f_equal.
    pose proof (ge_final (Version.final numbers) [1; 2; 0]%N) as H.
    unfold at_least_final in H. simpl in H.
    change (Version.final [1%N; 2%N; 0%N])
      with Config.MINIMUM_VERSION_SUPPORTING_GROUP_DEPS in H.
    destruct (Version.ge (Version.final numbers)
                Config.MINIMUM_VERSION_SUPPORTING_GROUP_DEPS),
      (componentwise_compare numbers [1%N; 2%N; 0%N]) eqn:E; try reflexivity.
    + destruct (proj1 H eq_refl) as [H0 | (_ & [H1 | (H1 & _)])];
        [lia | discriminate | discriminate].
    + apply (proj2 H). right. split; [reflexivity|]. right.
      conjunctions; [reflexivity | reflexivity | now right].
    + apply (proj2 H). right. split; [reflexivity|]. now left.
Qed.

Lemma C2_group_deps_threshold_witness :
  exists answer,
    Config.is_compatible_with_group_deps
      (sample_env (Version.make 0 [1; 2]%N None (Some 1%N) None None))
    = Return answer
    /\ (answer = true
        <-> at_least_final [1; 2; 0]%N (Version.make 0 [1; 2]%N None (Some 1%N) None None)).
Proof.
  apply (proj1 C2_group_deps_threshold
           (sample_env (Version.make 0 [1; 2]%N None (Some 1%N) None None))).
  reflexivity.
Defined.

(** C3: when the session answers the command of [export] with a captured
    output, the output is split into lines that keep their terminators (so
    that they reassemble to the output); [export] returns the
    concatenation, in order, of exactly the lines that do not begin with
    [Warning:], and writes every line that does to the error stream, in
    order and unchanged, each followed by the newline [print] adds. *)
Theorem C3_warnings_diverted (env : Environment) (groups : option (list str))
    (st st1 : Poetry.State) (cfg : Config.t) (extras selection : list str)
    (output : str) :
  Poetry.config env st = (Return cfg, st1) ->
  Config.extras cfg = Return extras ->
  selected env groups selection ->
  run_always (Poetry.session (Poetry.self st))
    (export_command (export_prefix extras ++ selection)) = Return (Some (Text output)) ->
  concat (PyStr.splitlines output true) = output
  /\ fst (Poetry.export env groups st)
     = Return (concat (filter (fun line => negb (is_warning line))
                         (PyStr.splitlines output true)))
  /\ Poetry.sys_stderr (snd (Poetry.export env groups st))
     = Poetry.sys_stderr st
       ++ concat (map (fun line => line ++ newline)
                    (filter is_warning (PyStr.splitlines output true)))
  /\ (forall line, is_warning line = true <-> exists rest, line = lit "Warning:" ++ rest).
Proof.
  intros Hcfg Hextras Hselection Hout.
  pose proof (@export_line _ _ _ _ _ _ _ Hcfg Hextras Hselection) as (_ & _ & He & _).
  rewrite (@export_given_output _ _ _ _ _ _ _ Hcfg Hextras Hselection output Hout).
  conjunctions.
  - apply (splitlines_from_concat output []).
  - reflexivity.
  - simpl. now rewrite He.
  - intros line. apply startswith_prefix.
Qed.

Lemma C3_warnings_diverted_witness :
  (fst (Poetry.export (sample_env (Version.final [1; 2; 0]%N)) None sample_state)
   = Return (lit "first==2.0.2" ++ newline ++ lit "second==1.0")
   /\ Poetry.sys_stderr
        (snd (Poetry.export (sample_env (Version.final [1; 2; 0]%N)) None sample_state))
      = lit "Warning: The lock file is not up to date." ++ newline ++ newline
        ++ lit "Warning: deprecated" ++ newline ++ newline)
  /\ (fst (Poetry.export uninstalled_env (Some [lit "docs"]) sample_state)
      = Return (lit "first==2.0.2" ++ newline ++ lit "second==1.0")
      /\ Poetry.sys_stderr
           (snd (Poetry.export uninstalled_env (Some [lit "docs"]) sample_state))
         = lit "Warning: The lock file is not up to date." ++ newline ++ newline
           ++ lit "Warning: deprecated" ++ newline ++ newline).
Proof.
  split.
  - destruct (@C3_warnings_diverted (sample_env (Version.final [1; 2; 0]%N)) None
                sample_state
                (snd (Poetry.config (sample_env (Version.final [1; 2; 0]%N)) sample_state))
                {| Config.id := 0; Config._config := Table sample_metadata |}
                [lit "pygments"; lit "docs"] [lit "--with=dev"] sample_requirements
                eq_refl eq_refl
                (or_intror (conj (or_introl eq_refl)
                   (ex_intro _ (Version.final [1; 2; 0]%N) (conj eq_refl eq_refl))))
                eq_refl)
      as (_ & Hr & Herr & _).
    split; [rewrite Hr | rewrite Herr]; vm_compute; reflexivity.
  - destruct (@C3_warnings_diverted uninstalled_env (Some [lit "docs"])
                sample_state
                (snd (Poetry.config uninstalled_env sample_state))
                {| Config.id := 0; Config._config := Table sample_metadata |}
                [lit "pygments"; lit "docs"] [lit "--only=docs"] sample_requirements
                eq_refl eq_refl
                (or_introl (ex_intro _ (lit "docs")
                   (ex_intro _ [] (conj eq_refl eq_refl))))
                eq_refl)
      as (_ & Hr & Herr & _).
    split; [rewrite Hr | rewrite Herr]; vm_compute; reflexivity.
Defined.



(** C5: for a [format] string other than ["wheel"] and ["sdist"], [build]
    raises the [ValueError] of the enumeration and leaves the state as it
    was, so that no command has gone to the session; for ["wheel"] and
    ["sdist"] the coercion succeeds and the command handed to the session
    carries [--format=<value>]. *)
Theorem C5_format_validation :
  (forall s st,
      s <> lit "wheel" -> s <> lit "sdist" ->
      Poetry.build (Poetry.Plain s) st = (Raise ValueError, st))
  /\ (forall s st,
      s = lit "wheel" \/ s = lit "sdist" ->
      exists f command,
        coerce (Poetry.Plain s) = Return f
        /\ Poetry.value f = s
        /\ Poetry.executed (snd (Poetry.build (Poetry.Plain s) st))
           = Poetry.executed st ++ [command]
        /\ args command
           = [lit "poetry"; lit "build"; lit "--format=" ++ s; lit "--no-ansi"]).
Proof.
  split.
  - intros s st Hwheel Hsdist. rewrite build_run.
    unfold coerce, Poetry.DistributionFormat_of_value.
    apply eqb_neq in Hwheel, Hsdist.
    change (Poetry.value WHEEL) with (lit "wheel").
    change (Poetry.value SDIST) with (lit "sdist").
    now rewrite Hwheel, Hsdist.
  - intros s st [-> | ->].
    + exists WHEEL, (build_command WHEEL). rewrite build_run.
      change (coerce (Poetry.Plain (lit "wheel"))) with (Return WHEEL).
      conjunctions; try reflexivity. cbv zeta.
      destruct (run_always (Poetry.session (Poetry.self st)) (build_command WHEEL))
        as [[[output|]|]|e]; reflexivity.
    + exists SDIST, (build_command SDIST). rewrite build_run.
      change (coerce (Poetry.Plain (lit "sdist"))) with (Return SDIST).
      conjunctions; try reflexivity. cbv zeta.
      destruct (run_always (Poetry.session (Poetry.self st)) (build_command SDIST))
        as [[[output|]|]|e]; reflexivity.
Qed.

Lemma C5_format_validation_witness :
  Poetry.build (Poetry.Plain (lit "zip")) sample_state = (Raise ValueError, sample_state)
  /\ Poetry.executed (snd (Poetry.build (Poetry.Plain (lit "zip")) sample_state)) = [].
Proof.
  assert (Poetry.build (Poetry.Plain (lit "zip")) sample_state
          = (Raise ValueError, sample_state)) as H.
  { apply (proj1 C5_format_validation (lit "zip") sample_state); discriminate. }
  split; [exact H | rewrite H; reflexivity].
Defined.

(** C6: for a format it accepts, [build] hands its command to the
    session, and when the session answers with a captured output the
    filename returned is the final whitespace-delimited token of that
    output: [build] returns a token exactly when it is that final token, so
    it returns one whenever the output has one; on the output Poetry prints
    for the wheel of [foobar] the result is
    ["foobar-0.1.0-py3-none-any.whl"]. *)
Theorem C6_build_filename :
  (forall format f st output,
      format = Poetry.Member f \/ format = Poetry.Plain (Poetry.value f) ->
      run_always (Poetry.session (Poetry.self st)) (build_command f)
      = Return (Some (Text output)) ->
      ran st (snd (Poetry.build format st)) (build_command f)
      /\ fst (Poetry.build format st) = list_getitem (PyStr.split output) (-1)
      /\ (forall token,
             fst (Poetry.build format st) = Return token <-> final_token output token))
  /\ fst (Poetry.build (Poetry.Plain (lit "wheel"))
            (Poetry.fresh (sample_session (Some sample_build_output))))
     = Return (lit "foobar-0.1.0-py3-none-any.whl").
Proof.
  split; [|vm_compute; reflexivity].
  intros format f st output Hformat Hout.
  rewrite build_run, (coerce_accepts Hformat). cbv zeta. rewrite Hout. simpl.
  conjunctions; [reflexivity | reflexivity |].
  intros token.
  assert (forall t, final_token output t ->
                    list_getitem (PyStr.split output) (-1) = Return t) as Hfinal.
  { intros t Ht. apply final_token_split in Ht as [front ->].
    apply list_getitem_last. }
  split.
  - intros Hr. destruct (blank_or_final_token output) as [Hblank | [t Ht]].
    + rewrite (blank_split Hblank) in Hr. discriminate.
    + rewrite (Hfinal t Ht) in Hr. now injection Hr as <-.
  - apply Hfinal.
Qed.

Lemma C6_build_filename_witness :
  ran (Poetry.fresh (sample_session (Some (lit "dist" ++ newline ++ lit "a.tar.gz  "))))
    (snd (Poetry.build (Poetry.Member SDIST)
            (Poetry.fresh (sample_session (Some (lit "dist" ++ newline ++ lit "a.tar.gz  "))))))
    (build_command SDIST)
  /\ fst (Poetry.build (Poetry.Member SDIST)
            (Poetry.fresh (sample_session (Some (lit "dist" ++ newline ++ lit "a.tar.gz  ")))))
     = Return (lit "a.tar.gz").
Proof.
  destruct (proj1 C6_build_filename (Poetry.Member SDIST) SDIST
              (Poetry.fresh (sample_session (Some (lit "dist" ++ newline ++ lit "a.tar.gz  "))))
              (lit "dist" ++ newline ++ lit "a.tar.gz  ")
              (or_introl eq_refl) eq_refl)
    as (Hran & Hresult & _).
  split; [exact Hran|]. rewrite Hresult. vm_compute; reflexivity.
Defined.

(** C7: with the configuration at hand and its extras readable, [export]
    hands one command to the session, whether groups are named or the
    installed version decides; its command line begins with the base
    command that asks for the requirements format, continues with one
    [--extras=<name>] flag per declared extra in the order [extras] yields
    them and with [--without-hashes], and only then has the flags that
    select groups. *)
Theorem C7_export_prefix (env : Environment) (groups : option (list str))
    (st st1 : Poetry.State) (cfg : Config.t) (extras selection : list str) :
  Poetry.config env st = (Return cfg, st1) ->
  Config.extras cfg = Return extras ->
  selected env groups selection ->
  exists command,
    ran st (snd (Poetry.export env groups st)) command
    /\ Poetry._config (Poetry.self (snd (Poetry.export env groups st))) = Some cfg
    /\ args command
       = [lit "poetry"; lit "export"; lit "--format=requirements.txt"]
         ++ map (fun extra => lit "--extras=" ++ extra) extras
         ++ [lit "--without-hashes"]
         ++ selection
    /\ (selection = map (fun group => lit "--only=" ++ group) (Poetry.elements groups)
        \/ selection = [lit "--with=dev"]
        \/ selection = [lit "--dev"]).
Proof.
  intros Hcfg Hextras Hselection.
  destruct (@export_hands_over _ _ _ _ _ _ _ Hcfg Hextras Hselection) as [Hran Hstored].
  eexists. conjunctions; [exact Hran | exact Hstored | |].
  - cbn [args export_command]. unfold export_prefix. now rewrite <- !app_assoc.
  - destruct Hselection as [(g & gs & -> & ->) | (_ & installed & _ & ->)];
      [now left | right].
    destruct (Version.ge installed Config.MINIMUM_VERSION_SUPPORTING_GROUP_DEPS); auto.
Qed.

Lemma C7_export_prefix_witness :
  (exists command,
      ran sample_state
        (snd (Poetry.export (sample_env (Version.final [1; 2; 1]%N)) None sample_state))
        command
      /\ args command
         = [lit "poetry"; lit "export"; lit "--format=requirements.txt";
            lit "--extras=pygments"; lit "--extras=docs"; lit "--without-hashes";
            lit "--with=dev"])
  /\ (exists command,
      ran sample_state
        (snd (Poetry.export uninstalled_env (Some [lit "test"; lit "lint"]) sample_state))
        command
      /\ args command
         = [lit "poetry"; lit "export"; lit "--format=requirements.txt";
            lit "--extras=pygments"; lit "--extras=docs"; lit "--without-hashes";
            lit "--only=test"; lit "--only=lint"]).
Proof.
  split.
  - destruct (@C7_export_prefix (sample_env (Version.final [1; 2; 1]%N)) None
                sample_state
                (snd (Poetry.config (sample_env (Version.final [1; 2; 1]%N)) sample_state))
                {| Config.id := 0; Config._config := Table sample_metadata |}
                [lit "pygments"; lit "docs"] [lit "--with=dev"]
                eq_refl eq_refl
                (or_intror (conj (or_introl eq_refl)
                   (ex_intro _ (Version.final [1; 2; 1]%N) (conj eq_refl eq_refl)))))
      as (command & Hran & _ & Hargs & _).
    exists command. split; [exact Hran | exact Hargs].
  - destruct (@C7_export_prefix uninstalled_env (Some [lit "test"; lit "lint"])
                sample_state
                (snd (Poetry.config uninstalled_env sample_state))
                {| Config.id := 0; Config._config := Table sample_metadata |}
                [lit "pygments"; lit "docs"] [lit "--only=test"; lit "--only=lint"]
                eq_refl eq_refl
                (or_introl (ex_intro _ (lit "test")
                   (ex_intro _ [lit "lint"] (conj eq_refl eq_refl)))))
      as (command & Hran & _ & Hargs & _).
    exists command. split; [exact Hran | exact Hargs].
Defined.

(** C8: for a manifest whose metadata table declares a string [name],
    [Config.name] is exactly that string, and [Config.extras] is exactly the
    keys of the declared [extras] table (none when no table is declared),
    whatever the order of the keys; a missing name raises [KeyError], a name
    that is no string and an [extras] value that is no table fail the
    assertion. *)
Theorem C8_config_attributes (self : nat) (entries : list (str * toml)) :
  (forall env project document tool,
      parse_file env (project ++ [lit "pyproject.toml"]) = Return (Table document) ->
      dict_lookup (lit "tool") document = Some (Table tool) ->
      dict_lookup (lit "poetry") tool = Some (Table entries) ->
      Config.__init__ env self project
      = Return {| Config.id := self; Config._config := Table entries |})
  /\ (forall declared,
      dict_lookup (lit "name") entries = Some (TString declared) ->
      Config.name {| Config.id := self; Config._config := Table entries |}
      = Return declared)
  /\ (dict_lookup (lit "name") entries = None ->
      Config.name {| Config.id := self; Config._config := Table entries |}
      = Raise KeyError)
  /\ (forall value,
      dict_lookup (lit "name") entries = Some value ->
      isinstance_str value = false ->
      Config.name {| Config.id := self; Config._config := Table entries |}
      = Raise AssertionError)
  /\ (forall declared,
      dict_lookup (lit "extras") entries = Some (Table declared) ->
      Config.extras {| Config.id := self; Config._config := Table entries |}
      = Return (map fst declared)
      /\ forall key, In key (map fst declared) <-> exists value, In (key, value) declared)
  /\ (dict_lookup (lit "extras") entries = None ->
      Config.extras {| Config.id := self; Config._config := Table entries |}
      = Return [])
  /\ (forall value,
      dict_lookup (lit "extras") entries = Some value ->
      isinstance_dict value = false ->
      Config.extras {| Config.id := self; Config._config := Table entries |}
      = Raise AssertionError)
  /\ (forall entries',
      NoDup (map fst entries) ->
      Permutation entries entries' ->
      Config.name {| Config.id := self; Config._config := Table entries' |}
      = Config.name {| Config.id := self; Config._config := Table entries |}
      /\ Config.extras {| Config.id := self; Config._config := Table entries' |}
         = Config.extras {| Config.id := self; Config._config := Table entries |})
  /\ (forall entries' declared declared',
      dict_lookup (lit "extras") entries = Some (Table declared) ->
      dict_lookup (lit "extras") entries' = Some (Table declared') ->
      Permutation declared declared' ->
      exists extras extras',
        Config.extras {| Config.id := self; Config._config := Table entries |}
        = Return extras
        /\ Config.extras {| Config.id := self; Config._config := Table entries' |}
           = Return extras'
        /\ Permutation extras extras'
        /\ forall key, In key extras <-> In key extras').
Proof.
  assert (forall l : list str, forallb (fun _ : str => true) l = true) as Hkeys
    by (induction l; auto).
  assert (forall es declared,
            dict_lookup (lit "extras") es = Some (Table declared) ->
            Config.extras {| Config.id := self; Config._config := Table es |}
            = Return (map fst declared)) as Hextras.
  { intros es declared H. unfold Config.extras, get, and_then. simpl.
    rewrite H. unfold assert. now rewrite Hkeys. }
  conjunctions.
  - intros env project document tool Hparse Htool Hpoetry.
    unfold Config.__init__, and_then, getitem. now rewrite Hparse, Htool, Hpoetry.
  - intros declared H. unfold Config.name, getitem, and_then. simpl. now rewrite H.
  - intros H. unfold Config.name, getitem, and_then. simpl. now rewrite H.
  - intros value H Hstr. unfold Config.name, getitem, and_then. simpl. rewrite H.
    destruct value; try reflexivity. discriminate.
  - intros declared H. split; [now apply Hextras|].
    intros key. rewrite in_map_iff. split.
    + intros ([k v] & <- & Hin). now exists v.
    + intros [v Hin]. now exists (key, v).
  - intros H. unfold Config.extras, get, and_then. simpl. now rewrite H.
  - intros value H Hdict. unfold Config.extras, get, and_then. simpl. rewrite H.
    destruct value; try reflexivity. discriminate.
  - intros entries' Hnodup Hperm.
    unfold Config.name, Config.extras, getitem, get, and_then. simpl.
    now rewrite !(dict_lookup_permutation _ Hnodup Hperm).
  - intros entries' declared declared' H H' Hperm.
    exists (map fst declared), (map fst declared').
    assert (Permutation (map fst declared) (map fst declared')) as Hp
      by now apply Permutation_map.
    conjunctions; [now apply Hextras | now apply Hextras | exact Hp |].
    intros key. split; apply Permutation_in; [assumption | now apply Permutation_sym].
Qed.

Lemma C8_config_attributes_witness :
  Config.name {| Config.id := 0; Config._config := Table sample_metadata |}
  = Return (lit "foobar")
  /\ Config.extras {| Config.id := 0; Config._config := Table sample_metadata |}
     = Return [lit "pygments"; lit "docs"].
Proof.
  split.
  - apply (proj1 (proj2 (C8_config_attributes 0 sample_metadata))). reflexivity.
  - apply (proj1 (proj2 (proj2 (proj2 (proj2 (C8_config_attributes 0 sample_metadata)))))
             [(lit "pygments", Array [TString (lit "pygments")]); (lit "docs", Array [])]).
    reflexivity.
Defined.

(** C9: the configuration is initialised lazily.  Constructing the adapter
    creates none; the first access that finds the manifest creates one and
    stores it; from then on every access, in whatever environment and after
    whatever other calls, returns this same object without constructing
    another, so that at most one is constructed in the life of an adapter
    and repeated exports build their command line from the same extras. *)
Theorem C9_config_lazy (session : Session) :
  Poetry._config (Poetry.__init__ session) = None
  /\ Poetry.constructed (Poetry.fresh session) = 0
  /\ (forall env st cfg,
      Poetry._config (Poetry.self st) = None ->
      Config.__init__ env (Poetry.constructed st) (cwd env) = Return cfg ->
      Poetry.config env st
      = (Return cfg, Poetry.store__config cfg (Poetry.bump_constructed st)))
  /\ (forall env st cfg,
      Poetry._config (Poetry.self st) = Some cfg ->
      Poetry.config env st = (Return cfg, st))
  /\ (forall env st cfg st1 calls env',
      Poetry.config env st = (Return cfg, st1) ->
      Poetry.config env' (perform_all calls st1) = (Return cfg, perform_all calls st1)
      /\ Poetry.constructed (perform_all calls st1) = Poetry.constructed st1)
  /\ (forall calls,
      Poetry.constructed (perform_all calls (Poetry.fresh session)) <= 1)
  /\ (forall env env' g gs st st1 st2 r1 r2 command1 command2,
      Poetry.export env (Some (g :: gs)) st = (r1, st1) ->
      ran st st1 command1 ->
      Poetry.export env' (Some (g :: gs)) st1 = (r2, st2) ->
      ran st1 st2 command2 ->
      command2 = command1).
Proof.
  conjunctions; try reflexivity.
  - intros env st cfg Hnone Hinit. now rewrite config_run, Hnone, Hinit.
  - intros env st cfg Hsome. now rewrite config_run, Hsome.
  - intros env st cfg st1 calls env' Hconfig.
    apply config_stores in Hconfig.
    destruct (perform_all_keeps_config calls _ Hconfig) as [Hkept Hcount].
    split; [|exact Hcount]. now rewrite config_run, Hkept.
  - intros calls.
    destruct (perform_all_constructs_once calls (Poetry.fresh session) eq_refl)
      as [[_ ->] | (_ & _ & _ & ->)]; simpl; lia.
  - intros env env' g gs st st1 st2 r1 r2 command1 command2 H1 Hran1 H2 Hran2.
    destruct (@export_ran_line _ _ _ _ _ _ H1 Hran1)
      as (cfg & extras & selection & Hcfg & Hextras & -> & [[_ ->] | [Hfalse _]]);
      [|discriminate].
    destruct (@export_ran_line _ _ _ _ _ _ H2 Hran2)
      as (cfg' & extras' & selection' & Hcfg' & Hextras' & -> & [[_ ->] | [Hfalse _]]);
      [|discriminate].
    destruct (perform_keeps_config (Export env' (Some (g :: gs))) st1 Hcfg) as [Hkept _].
    simpl in Hkept. rewrite H2 in Hkept. simpl in Hkept.
    congruence.
Qed.

Lemma C9_config_lazy_witness :
  Poetry.config empty_env
    (perform_all [Export empty_env None; Build (Poetry.Plain (lit "zip")); Access empty_env]
       (snd (Poetry.config (sample_env (Version.final [1; 2; 0]%N)) sample_state)))
  = (Return {| Config.id := 0; Config._config := Table sample_metadata |},
     perform_all [Export empty_env None; Build (Poetry.Plain (lit "zip")); Access empty_env]
       (snd (Poetry.config (sample_env (Version.final [1; 2; 0]%N)) sample_state)))
  /\ Poetry.constructed
       (perform_all [Export empty_env None; Build (Poetry.Plain (lit "zip")); Access empty_env]
          (snd (Poetry.config (sample_env (Version.final [1; 2; 0]%N)) sample_state)))
     = 1.
Proof.
  apply (proj1 (proj2 (proj2 (proj2 (proj2
           (C9_config_lazy (sample_session (Some sample_requirements))))))))
    with (env := sample_env (Version.final [1; 2; 0]%N)) (st := sample_state).
  vm_compute; reflexivity.
Defined.

(** C10: when the captured output of a [build] that was not skipped is
    empty or consists of whitespace only, the split yields no token and
    [build] raises [IndexError], which is neither of the two exceptions the
    module declares; [build] returns a filename exactly when the output has
    a character that is not whitespace. *)
Theorem C10_blank_build_output (format : Poetry.format_arg)
    (st st' : Poetry.State) (r : result str) (command : Command) (output : str) :
  Poetry.build format st = (r, st') ->
  ran st st' command ->
  run_always (Poetry.session (Poetry.self st)) command = Return (Some (Text output)) ->
  (blank output ->
     r = Raise IndexError
     /\ (forall msg, r <> Raise (CommandSkippedError msg))
     /\ r <> Raise IncompatiblePoetryVersionError
     /\ forall filename, r <> Return filename)
  /\ ((exists filename, r = Return filename)
      <-> exists c, In c output /\ PyStr.isspace c = false).
Proof.
  intros Hbuild Hran Hout.
  destruct (@build_ran _ _ _ _ _ Hbuild Hran) as (f & _ & _ & ->).
  rewrite Hout. split.
  - intros Hblank. rewrite (blank_split Hblank).
    conjunctions; [reflexivity | discriminate | discriminate | discriminate].
  - rewrite <- not_blank_visible. split.
    + intros [filename Hr] Hblank. rewrite (blank_split Hblank) in Hr. discriminate.
    + intros Hvisible.
      destruct (blank_or_final_token output) as [Hblank | [token Htoken]];
        [contradiction|].
      exists token. apply final_token_split in Htoken as [front ->].
      apply list_getitem_last.
Qed.

Lemma C10_blank_build_output_witness :
  blank (lit "  " ++ newline)
  /\ fst (Poetry.build (Poetry.Plain (lit "sdist"))
            (Poetry.fresh (sample_session (Some (lit "  " ++ newline)))))
     = Raise IndexError.
Proof.
  assert (blank (lit "  " ++ newline)) as Hblank
    by (repeat constructor).
  split; [exact Hblank|].
  refine (proj1 (proj1 (@C10_blank_build_output (Poetry.Plain (lit "sdist"))
       (Poetry.fresh (sample_session (Some (lit "  " ++ newline))))
       (snd (Poetry.build (Poetry.Plain (lit "sdist"))
               (Poetry.fresh (sample_session (Some (lit "  " ++ newline))))))
       _ (build_command SDIST) (lit "  " ++ newline) _ _ _) Hblank));
    vm_compute; reflexivity.
Defined.

(** ** Lines *)

Lemma splitlines_from_plain (body s line : str) :
  plain body ->
  PyStr.splitlines_from true line (body ++ s)
  = PyStr.splitlines_from true (line ++ body) s.
Proof.
  intros Hbody; revert line; induction Hbody as [|c body Hc Hbody IH]; intros line.
  - now rewrite app_nil_r.
  - cbn [app PyStr.splitlines_from]. rewrite Hc, IH, <- app_assoc. reflexivity.
Qed.

(** A boundary character ends the line, unless it is a carriage return
    before a line feed. *)
Lemma splitlines_from_boundary (c : char) (s line : str) :
  PyStr.is_linebreak c = true ->
  (c = 13%N -> forall s', s <> 10%N :: s') ->
  PyStr.splitlines_from true line (c :: s)
  = (line ++ [c]) :: PyStr.splitlines_from true [] s.
Proof.
  intros Hc Hcrlf. cbn [PyStr.splitlines_from]. rewrite Hc.
  destruct s as [|c' s']; [reflexivity|].
  destruct ((c =? 13)%N && (c' =? 10)%N) eqn:E; [|reflexivity].
  apply andb_true_iff in E as [E1 E2].
  apply N.eqb_eq in E1, E2. subst. now destruct (Hcrlf eq_refl s').
Qed.

Lemma splitlines_from_crlf (s line : str) :
  PyStr.splitlines_from true line (13%N :: 10%N :: s)
  = (line ++ [13; 10]%N) :: PyStr.splitlines_from true [] s.
Proof. reflexivity. Qed.

Lemma plain_snoc (line : str) (c : char) :
  plain line -> PyStr.is_linebreak c = false -> plain (line ++ [c]).
Proof. intros Hline Hc. apply Forall_app. split; [assumption | now constructor]. Qed.

(** What [splitlines] yields is well split. *)
Lemma splitlines_from_well_split (s line : str) :
  plain line -> well_split (PyStr.splitlines_from true line s).
Proof.
  remember (length s) as n eqn:Hn.
  revert s line Hn.
  induction n as [n IH] using lt_wf_ind.
  intros [|c rest] line Hn Hline.
  - destruct line as [|d line]; [constructor|].
    apply well_split_last; [discriminate | assumption].
  - cbn [PyStr.splitlines_from].
    destruct (PyStr.is_linebreak c) eqn:Hc.
    + assert (terminated (line ++ [c])) as Hone.
      { exists line, [c]. conjunctions; [reflexivity | assumption |].
        left. now exists c. }
      destruct rest as [|c' rest'].
      * apply well_split_cons; [exact Hone | constructor].
      * destruct ((c =? 13)%N && (c' =? 10)%N) eqn:E.
        -- apply andb_true_iff in E as [E1 E2]. apply N.eqb_eq in E1, E2. subst.
           apply well_split_cons.
           ++ exists line, [13; 10]%N. conjunctions; [reflexivity | assumption | now right].
           ++ apply (IH (length rest')); [simpl; lia | reflexivity | constructor].
        -- apply well_split_cons; [exact Hone|].
           apply (IH (length (c' :: rest'))); [simpl in *; lia | reflexivity | constructor].
    + apply (IH (length rest)); [simpl in *; lia | reflexivity | now apply plain_snoc].
Qed.

Lemma filter_well_split (keep : str -> bool) (lines : list str) :
  well_split lines -> well_split (filter keep lines).
Proof.
  induction 1 as [|line Hne Hplain|line lines Hline Hlines IH]; simpl.
  - constructor.
  - destruct (keep line); [now apply well_split_last | constructor].
  - destruct (keep line); [now apply well_split_cons | assumption].
Qed.

(** A line that begins with a line feed is the line feed alone. *)
Lemma well_split_line_feed (lines : list str) (s : str) :
  well_split lines ->
  concat lines = 10%N :: s ->
  exists lines', lines = [10%N] :: lines' /\ well_split lines' /\ s = concat lines'.
Proof.
  intros Hlines Hconcat.
  destruct Hlines as [|line Hne Hplain|line lines (body & t & -> & Hbody & Ht) Hlines].
  - discriminate.
  - simpl in Hconcat. rewrite app_nil_r in Hconcat. subst line.
    inversion Hplain as [|? ? Hc _]. discriminate.
  - destruct body as [|c body].
    + destruct Ht as [(c & -> & Hc) | ->].
      * simpl in Hconcat. injection Hconcat as -> <-.
        exists lines. auto.
      * discriminate.
    + simpl in Hconcat. injection Hconcat as -> _.
      inversion Hbody as [|? ? Hc _]. discriminate.
Qed.

(** What follows a character that the prefix does not contain is of no
    account. *)
Lemma startswith_miss (prefix x y z : str) (c : char) :
  ~ In c prefix ->
  PyStr.startswith (x ++ c :: y) prefix = PyStr.startswith (x ++ c :: z) prefix.
Proof.
  revert x; induction prefix as [|p prefix IH]; intros x Hmiss; [reflexivity|].
  destruct x as [|d x]; simpl.
  - destruct (N.eqb_spec c p) as [-> | _]; [|reflexivity].
    exfalso. apply Hmiss. now left.
  - rewrite (IH x); [reflexivity|]. intros Hin. apply Hmiss. now right.
Qed.

(** A line feed after the carriage return that ends a line does not change
    whether the line is a warning. *)
Lemma is_warning_line_feed (body : str) :
  is_warning (body ++ [13; 10]%N) = is_warning (body ++ [13]%N).
Proof.
  apply startswith_miss. intros Hin. simpl in Hin.
  repeat (destruct Hin as [Hin | Hin]; [discriminate|]). exact Hin.
Qed.

(** Putting kept lines together again makes no new warning line. *)
Lemma concat_well_split_kept (lines : list str) :
  well_split lines ->
  Forall (fun line => is_warning line = false) lines ->
  Forall (fun line => is_warning line = false) (PyStr.splitlines (concat lines) true).
Proof.
  unfold PyStr.splitlines.
  remember (length lines) as n eqn:Hn.
  revert lines Hn.
  induction n as [n IH] using lt_wf_ind.
  intros lines Hn Hlines Hkept.
  destruct Hlines as [|line Hne Hplain|line lines (body & t & -> & Hbody & Ht) Hlines].
  - constructor.
  - simpl concat. rewrite (splitlines_from_plain [] [] Hplain). simpl.
    destruct line; [congruence | assumption].
  - inversion Hkept as [|? ? Hline Hrest]; subst.
    simpl concat. rewrite <- app_assoc.
    rewrite (splitlines_from_plain _ [] Hbody). simpl app at 1.
    destruct Ht as [(c & -> & Hc) | ->].
    + cbn [app].
      destruct (N.eqb_spec c 13) as [-> | Hcr].
      * destruct (concat lines) as [|d s] eqn:Hconcat.
        -- constructor; [assumption | constructor].
        -- destruct (N.eqb_spec d 10) as [-> | Hlf].
           ++ destruct (well_split_line_feed Hlines Hconcat)
                as (lines' & -> & Hlines' & ->).
              rewrite splitlines_from_crlf. constructor.
              ** now rewrite is_warning_line_feed.
              ** inversion Hrest; subst.
                 apply (IH (length lines'));
                   [simpl; apply Nat.lt_lt_succ_r, Nat.lt_succ_diag_r | reflexivity | | ];
                   assumption.
           ++ rewrite splitlines_from_boundary; [| assumption | congruence].
              constructor; [assumption|]. rewrite <- Hconcat.
              apply (IH (length lines)); [simpl; apply Nat.lt_succ_diag_r | reflexivity | | ];
                assumption.
      * rewrite splitlines_from_boundary; [| assumption | congruence].
        constructor; [assumption|].
        apply (IH (length lines)); [simpl; apply Nat.lt_succ_diag_r | reflexivity | | ]; assumption.
    + cbn [app]. rewrite splitlines_from_crlf.
      constructor; [assumption|].
      apply (IH (length lines)); [simpl; apply Nat.lt_succ_diag_r | reflexivity | | ]; assumption.
Qed.

Lemma filter_all (A : Type) (keep : A -> bool) (l : list A) :
  Forall (fun x => keep x = true) l -> filter keep l = l.
Proof.
  induction 1 as [|x l Hx Hl IH]; simpl; [reflexivity|]. now rewrite Hx, IH.
Qed.

Lemma filter_none (A : Type) (keep : A -> bool) (l : list A) :
  Forall (fun x => keep x = false) l -> filter keep l = [].
Proof.
  induction 1 as [|x l Hx Hl IH]; simpl; [reflexivity|]. now rewrite Hx, IH.
Qed.

Lemma filter_kept (lines : list str) :
  Forall (fun line => is_warning line = false)
    (filter (fun line => negb (is_warning line)) lines).
Proof.
  apply Forall_forall. intros line Hin. apply filter_In in Hin as [_ Hkeep].
  now destruct (is_warning line).
Qed.

(** The text [Poetry.export] returns has no warning line, so stripping the
    warnings once more changes nothing. *)
Lemma strip_warnings_kept (output : str) :
  Forall (fun line => is_warning line = false)
    (PyStr.splitlines (strip_warnings output) true).
Proof.
  unfold strip_warnings. apply concat_well_split_kept.
  - apply filter_well_split. apply splitlines_from_well_split. constructor.
  - apply filter_kept.
Qed.

Lemma strip_warnings_idempotent (output : str) :
  strip_warnings (strip_warnings output) = strip_warnings output.
Proof.
  pose proof (strip_warnings_kept output) as Hkept.
  unfold strip_warnings at 1. rewrite filter_all.
  - apply (splitlines_from_concat (strip_warnings output) []).
  - eapply Forall_impl; [|exact Hkept]. intros line H. simpl in H. now rewrite H.
Qed.

(** The characters of the output are those of the returned text and of
    the diverted lines. *)
Lemma strip_warnings_conserves (output : str) :
  Permutation (strip_warnings output ++ concat (warnings_of output)) output.
Proof.
  unfold strip_warnings, warnings_of.
  rewrite <- (splitlines_from_concat output []) at 3.
  fold (PyStr.splitlines output true).
  induction (PyStr.splitlines output true) as [|line lines IH]; simpl; [constructor|].
  destruct (is_warning line); simpl.
  - rewrite <- IH. apply Permutation_app_swap_app.
  - rewrite <- app_assoc. now apply Permutation_app_head.
Qed.

(** ** The outcome of an export *)

Section ExportOutput.

Variables (env : Environment) (groups : option (list str)).
Variables (st st' : Poetry.State) (r : result str) (command : Command).
Hypothesis Hexport : Poetry.export env groups st = (r, st').
Hypothesis Hran : ran st st' command.

(** What [Poetry.export] returns and prints when the session has captured
    an output. *)
Lemma export_returns (output : str) :
  run_always (Poetry.session (Poetry.self st)) command = Return (Some (Text output)) ->
  r = Return (strip_warnings output)
  /\ Poetry.sys_stderr st'
     = Poetry.sys_stderr st
       ++ concat (map (fun line => line ++ newline) (warnings_of output)).
Proof.
  intros Hout.
  destruct (@export_ran _ _ _ _ _ _ Hexport Hran)
    as (argv & st1 & _ & Hcommand & Hs & He & Hfinish).
  subst command.
  rewrite export_finish_run, Hs, Hout in Hfinish. cbv zeta in Hfinish.
  unfold strip_warnings, warnings_of.
  injection Hfinish as <- <-. split; [reflexivity|].
  simpl. now rewrite He.
Qed.


End ExportOutput.

(** Whatever happens in [Poetry.export]: either its first part raises and
    nothing was handed to the session, or one command was handed over and
    the answer of the session decides. *)
Lemma export_outcome (env : Environment) (groups : option (list str)) (st : Poetry.State) :
  (exists e,
      fst (Poetry.export env groups st) = Raise e
      /\ fst (export_args env groups st) = Raise e
      /\ Poetry.executed (snd (Poetry.export env groups st)) = Poetry.executed st
      /\ Poetry.sys_stderr (snd (Poetry.export env groups st)) = Poetry.sys_stderr st)
  \/ (exists argv,
         fst (export_args env groups st) = Return argv
         /\ ran st (snd (Poetry.export env groups st)) (export_command argv)
         /\ match run_always (Poetry.session (Poetry.self st)) (export_command argv) with
            | Raise e =>
                fst (Poetry.export env groups st) = Raise e
                /\ Poetry.sys_stderr (snd (Poetry.export env groups st))
                   = Poetry.sys_stderr st
            | Return None =>
                fst (Poetry.export env groups st)
                = Raise (CommandSkippedError export_skipped)
                /\ Poetry.sys_stderr (snd (Poetry.export env groups st))
                   = Poetry.sys_stderr st
            | Return (Some NotText) =>
                fst (Poetry.export env groups st) = Raise AssertionError
                /\ Poetry.sys_stderr (snd (Poetry.export env groups st))
                   = Poetry.sys_stderr st
            | Return (Some (Text output)) =>
                fst (Poetry.export env groups st) = Return (strip_warnings output)
            end).
Proof.
  rewrite export_split. unfold Poetry.bind.
  pose proof (export_args_frame env groups st) as (Hs & He & Hx).
  destruct (export_args env groups st) as [[argv|e] st1]; simpl in Hs, He, Hx.
  - right. exists argv. split; [reflexivity|].
    rewrite export_finish_run, Hs. cbv zeta. unfold ran.
    destruct (run_always (Poetry.session (Poetry.self st)) (export_command argv))
      as [[[output|]|]|e]; simpl; rewrite ?Hx, ?He; auto.
  - left. exists e. simpl. auto.
Qed.

(** ** Further properties of the module *)

(** X1: when no line of the captured output begins with [Warning:],
    [export] returns the output as it is and prints nothing.  This holds
    from what [export] is given: a configuration it can load, extras it
    can read, a selection of groups it can make and a session that answers
    its command with the output; the command is then handed over.  It holds
    as well of any export observed to have handed over a command the
    session answers so. *)
Theorem export_clean_output :
  (forall (env : Environment) (groups : option (list str)) (st st1 : Poetry.State)
          (cfg : Config.t) (extras selection : list str) (output : str),
      Poetry.config env st = (Return cfg, st1) ->
      Config.extras cfg = Return extras ->
      selected env groups selection ->
      run_always (Poetry.session (Poetry.self st))
        (export_command (export_prefix extras ++ selection))
      = Return (Some (Text output)) ->
      Forall (fun line => is_warning line = false) (PyStr.splitlines output true) ->
      fst (Poetry.export env groups st) = Return output
      /\ Poetry.sys_stderr (snd (Poetry.export env groups st)) = Poetry.sys_stderr st
      /\ ran st (snd (Poetry.export env groups st))
           (export_command (export_prefix extras ++ selection)))
  /\ (forall (env : Environment) (groups : option (list str)) (st st' : Poetry.State)
             (r : result str) (command : Command) (output : str),
         Poetry.export env groups st = (r, st') ->
         ran st st' command ->
         run_always (Poetry.session (Poetry.self st)) command = Return (Some (Text output)) ->
         Forall (fun line => is_warning line = false) (PyStr.splitlines output true) ->
         r = Return output /\ Poetry.sys_stderr st' = Poetry.sys_stderr st).
Proof.
  assert (forall output,
             Forall (fun line => is_warning line = false) (PyStr.splitlines output true) ->
             strip_warnings output = output /\ warnings_of output = []) as Hclean.
  { intros output Hclean. unfold strip_warnings, warnings_of.
    rewrite filter_all, (filter_none _ Hclean).
    - split; [|reflexivity]. apply (splitlines_from_concat output []).
    - eapply Forall_impl; [|exact Hclean]. intros line H. simpl in H. now rewrite H. }
  split.
  - intros env groups st st1 cfg extras selection output Hcfg Hextras Hselection Hout Hlines.
    destruct (Hclean output Hlines) as [Hstrip Hwarnings].
    pose proof (@export_line _ _ _ _ _ _ _ Hcfg Hextras Hselection) as (_ & _ & He & _).
    destruct (@export_hands_over _ _ _ _ _ _ _ Hcfg Hextras Hselection) as [Hran _].
    split; [|split; [|exact Hran]];
      rewrite (@export_given_output _ _ _ _ _ _ _ Hcfg Hextras Hselection output Hout),
        Hstrip, Hwarnings.
    + reflexivity.
    + simpl. rewrite app_nil_r. exact He.
  - intros env groups st st' r command output Hexport Hran Hout Hlines.
    destruct (Hclean output Hlines) as [Hstrip Hwarnings].
    destruct (@export_returns _ _ _ _ _ _ Hexport Hran output Hout) as [-> ->].
    rewrite Hstrip, Hwarnings. split; [reflexivity|]. simpl. now rewrite app_nil_r.
Qed.

Lemma export_clean_output_witness :
  (fst (Poetry.export uninstalled_env (Some [lit "docs"])
          (Poetry.fresh (sample_session (Some sample_build_output))))
   = Return sample_build_output
   /\ Poetry.sys_stderr
        (snd (Poetry.export uninstalled_env (Some [lit "docs"])
                (Poetry.fresh (sample_session (Some sample_build_output)))))
      = []
   /\ Poetry.executed
        (snd (Poetry.export uninstalled_env (Some [lit "docs"])
                (Poetry.fresh (sample_session (Some sample_build_output)))))
      = [export_command
           [lit "poetry"; lit "export"; lit "--format=requirements.txt";
            lit "--extras=pygments"; lit "--extras=docs"; lit "--without-hashes";
            lit "--only=docs"]])
  /\ (fst (Poetry.export (sample_env (Version.final [1; 1; 9]%N)) None
             (Poetry.fresh (sample_session (Some sample_build_output))))
      = Return sample_build_output
      /\ Poetry.sys_stderr
           (snd (Poetry.export (sample_env (Version.final [1; 1; 9]%N)) None
                   (Poetry.fresh (sample_session (Some sample_build_output)))))
         = []
      /\ Poetry.executed
           (snd (Poetry.export (sample_env (Version.final [1; 1; 9]%N)) None
                   (Poetry.fresh (sample_session (Some sample_build_output)))))
         = [export_command
              [lit "poetry"; lit "export"; lit "--format=requirements.txt";
               lit "--extras=pygments"; lit "--extras=docs"; lit "--without-hashes";
               lit "--dev"]]).
Proof.
  split.
  - apply (proj1 export_clean_output uninstalled_env (Some [lit "docs"])
             (Poetry.fresh (sample_session (Some sample_build_output)))
             (snd (Poetry.config uninstalled_env
                     (Poetry.fresh (sample_session (Some sample_build_output)))))
             {| Config.id := 0; Config._config := Table sample_metadata |}
             [lit "pygments"; lit "docs"] [lit "--only=docs"] sample_build_output
             eq_refl eq_refl
             (or_introl (ex_intro _ (lit "docs") (ex_intro _ [] (conj eq_refl eq_refl))))
             eq_refl).
    vm_compute. repeat constructor.
  - apply (proj1 export_clean_output (sample_env (Version.final [1; 1; 9]%N)) None
             (Poetry.fresh (sample_session (Some sample_build_output)))
             (snd (Poetry.config (sample_env (Version.final [1; 1; 9]%N))
                     (Poetry.fresh (sample_session (Some sample_build_output)))))
             {| Config.id := 0; Config._config := Table sample_metadata |}
             [lit "pygments"; lit "docs"] [lit "--dev"] sample_build_output
             eq_refl eq_refl
             (or_intror (conj (or_introl eq_refl)
                (ex_intro _ (Version.final [1; 1; 9]%N) (conj eq_refl eq_refl))))
             eq_refl).
    vm_compute. repeat constructor.
Defined.

(** X2: the text [export] returns has no line that begins with
    [Warning:], so that handing it to the same treatment once more gives it
    back unchanged. *)
Theorem export_result_free_of_warnings (env : Environment) (groups : option (list str))
    (st st' : Poetry.State) (r : result str) (command : Command) (output : str) :
  Poetry.export env groups st = (r, st') ->
  ran st st' command ->
  run_always (Poetry.session (Poetry.self st)) command = Return (Some (Text output)) ->
  exists text,
    r = Return text
    /\ Forall (fun line => is_warning line = false) (PyStr.splitlines text true)
    /\ strip_warnings text = text.
Proof.
  intros Hexport Hran Hout.
  destruct (@export_returns _ _ _ _ _ _ Hexport Hran output Hout) as [-> _].
  exists (strip_warnings output). conjunctions.
  - reflexivity.
  - apply strip_warnings_kept.
  - apply strip_warnings_idempotent.
Qed.

Lemma export_result_free_of_warnings_witness :
  exists text,
    fst (Poetry.export (sample_env (Version.final [1; 2; 0]%N)) None sample_state)
    = Return text
    /\ Forall (fun line => is_warning line = false) (PyStr.splitlines text true)
    /\ strip_warnings text = text.
Proof.
  apply (@export_result_free_of_warnings (sample_env (Version.final [1; 2; 0]%N)) None
           sample_state
           (snd (Poetry.export (sample_env (Version.final [1; 2; 0]%N)) None sample_state))
           _
           (export_command
              [lit "poetry"; lit "export"; lit "--format=requirements.txt";
               lit "--extras=pygments"; lit "--extras=docs"; lit "--without-hashes";
               lit "--with=dev"])
           sample_requirements); vm_compute; reflexivity.
Defined.

(** X3: [export] neither loses nor invents output.  Given a configuration
    it can load, extras it can read, a selection of groups it can make and
    a session that answers its command with a captured output, it hands
    the command over and returns a text; the characters of that text
    together with those of the diverted lines are the characters of the
    captured output, and the error stream afterwards is the error stream
    before followed by the diverted lines, in order and unchanged, each
    with the newline of [print]; its length grows accordingly. *)
Theorem export_conserves_output (env : Environment) (groups : option (list str))
    (st st1 : Poetry.State) (cfg : Config.t) (extras selection : list str)
    (output : str) :
  Poetry.config env st = (Return cfg, st1) ->
  Config.extras cfg = Return extras ->
  selected env groups selection ->
  run_always (Poetry.session (Poetry.self st))
    (export_command (export_prefix extras ++ selection)) = Return (Some (Text output)) ->
  ran st (snd (Poetry.export env groups st))
    (export_command (export_prefix extras ++ selection))
  /\ exists text,
      fst (Poetry.export env groups st) = Return text
      /\ text = strip_warnings output
      /\ Permutation (text ++ concat (warnings_of output)) output
      /\ length text + length (concat (warnings_of output)) = length output
      /\ Poetry.sys_stderr (snd (Poetry.export env groups st))
         = Poetry.sys_stderr st
           ++ concat (map (fun line => line ++ newline) (warnings_of output))
      /\ length (Poetry.sys_stderr (snd (Poetry.export env groups st)))
         = length (Poetry.sys_stderr st)
           + length (concat (warnings_of output)) + length (warnings_of output).
Proof.
  intros Hcfg Hextras Hselection Hout.
  pose proof (@export_line _ _ _ _ _ _ _ Hcfg Hextras Hselection) as (_ & _ & He & _).
  destruct (@export_hands_over _ _ _ _ _ _ _ Hcfg Hextras Hselection) as [Hran _].
  split; [exact Hran|].
  rewrite (@export_given_output _ _ _ _ _ _ _ Hcfg Hextras Hselection output Hout).
  exists (strip_warnings output).
  pose proof (strip_warnings_conserves output) as Hperm.
  assert (Poetry.sys_stderr
            (Poetry.write_stderr
               (concat (map (fun line => line ++ newline) (warnings_of output)))
               (Poetry.record_command
                  (export_command (export_prefix extras ++ selection)) st1))
          = Poetry.sys_stderr st
            ++ concat (map (fun line => line ++ newline) (warnings_of output))) as Herr
    by (simpl; now rewrite He).
  cbn [fst snd]. conjunctions.
  - reflexivity.
  - reflexivity.
  - exact Hperm.
  - rewrite <- length_app. now apply Permutation_length.
  - exact Herr.
  - rewrite Herr, length_app, <- Nat.add_assoc. f_equal. clear Hperm Herr.
    induction (warnings_of output) as [|line lines IH]; [reflexivity|].
    simpl. rewrite !length_app, IH. simpl. lia.
Qed.

Lemma export_conserves_output_witness :
  (fst (Poetry.export (sample_env (Version.final [1; 2; 0]%N)) None sample_state)
   = Return (lit "first==2.0.2" ++ newline ++ lit "second==1.0")
   /\ Poetry.sys_stderr
        (snd (Poetry.export (sample_env (Version.final [1; 2; 0]%N)) None sample_state))
      = lit "Warning: The lock file is not up to date." ++ newline ++ newline
        ++ lit "Warning: deprecated" ++ newline ++ newline)
  /\ (fst (Poetry.export uninstalled_env (Some [lit "docs"]) sample_state)
      = Return (lit "first==2.0.2" ++ newline ++ lit "second==1.0")
      /\ Poetry.sys_stderr
           (snd (Poetry.export uninstalled_env (Some [lit "docs"]) sample_state))
         = lit "Warning: The lock file is not up to date." ++ newline ++ newline
           ++ lit "Warning: deprecated" ++ newline ++ newline).
Proof.
  split.
  - destruct (@export_conserves_output (sample_env (Version.final [1; 2; 0]%N)) None
                sample_state
                (snd (Poetry.config (sample_env (Version.final [1; 2; 0]%N)) sample_state))
                {| Config.id := 0; Config._config := Table sample_metadata |}
                [lit "pygments"; lit "docs"] [lit "--with=dev"] sample_requirements
                eq_refl eq_refl
                (or_intror (conj (or_introl eq_refl)
                   (ex_intro _ (Version.final [1; 2; 0]%N) (conj eq_refl eq_refl))))
                eq_refl)
      as (_ & text & Hr & Htext & _ & _ & Herr & _).
    split; [rewrite Hr, Htext | rewrite Herr]; vm_compute; reflexivity.
  - destruct (@export_conserves_output uninstalled_env (Some [lit "docs"])
                sample_state
                (snd (Poetry.config uninstalled_env sample_state))
                {| Config.id := 0; Config._config := Table sample_metadata |}
                [lit "pygments"; lit "docs"] [lit "--only=docs"] sample_requirements
                eq_refl eq_refl
                (or_introl (ex_intro _ (lit "docs")
                   (ex_intro _ [] (conj eq_refl eq_refl))))
                eq_refl)
      as (_ & text & Hr & Htext & _ & _ & Herr & _).
    split; [rewrite Hr, Htext | rewrite Herr]; vm_compute; reflexivity.
Defined.

Lemma config_same_manifest (env env' : Environment) (st : Poetry.State) :
  cwd env = cwd env' ->
  parse_file env = parse_file env' ->
  Poetry.config env st = Poetry.config env' st.
Proof.
  intros Hcwd Hparse. rewrite !config_run.
  unfold Config.__init__. now rewrite Hcwd, Hparse.
Qed.

(** X4: with a non-empty list of groups [export] does not ask which
    version of the tool is installed: in two environments with the same
    manifest it does the same and returns the same, whatever the installed
    version is and whether the tool is installed at all. *)
Theorem export_groups_ignore_version (env env' : Environment)
    (g : str) (gs : list str) (st : Poetry.State) :
  cwd env = cwd env' ->
  parse_file env = parse_file env' ->
  Poetry.export env (Some (g :: gs)) st = Poetry.export env' (Some (g :: gs)) st.
Proof.
  intros Hcwd Hparse.
  rewrite !export_split. unfold Poetry.bind.
  rewrite !export_args_run, (@config_same_manifest env env' st Hcwd Hparse).
  reflexivity.
Qed.

Lemma export_groups_ignore_version_witness :
  Poetry.export (sample_env (Version.final [1; 1; 9]%N)) (Some [lit "test"; lit "lint"])
    sample_state
  = Poetry.export uninstalled_env (Some [lit "test"; lit "lint"]) sample_state.
Proof.
  apply export_groups_ignore_version; reflexivity.
Defined.

(** X5: what goes wrong before the session is called stops [export] there.
    When the extras of the manifest cannot be read, or when no group is
    named and the installed version cannot be read, [export] raises that
    very exception, hands no command to the session and prints nothing. *)
Theorem export_fails_before_running (env : Environment) (groups : option (list str))
    (st st1 : Poetry.State) (cfg : Config.t) (e : exn) :
  Poetry.config env st = (Return cfg, st1) ->
  Config.extras cfg = Raise e
  \/ (exists extras,
         Config.extras cfg = Return extras
         /\ (groups = None \/ groups = Some [])
         /\ poetry_installed env = Raise e) ->
  Poetry.export env groups st = (Raise e, st1)
  /\ Poetry.executed st1 = Poetry.executed st
  /\ Poetry.sys_stderr st1 = Poetry.sys_stderr st.
Proof.
  intros Hcfg Hfail.
  pose proof (config_frame env st) as (_ & Herr & Hexec).
  rewrite Hcfg in Herr, Hexec. simpl in Herr, Hexec.
  conjunctions; [|exact Hexec | exact Herr].
  rewrite export_split. unfold Poetry.bind. rewrite export_args_run, Hcfg.
  destruct Hfail as [-> | (extras & -> & Hgroups & Hinstalled)]; [reflexivity|].
  assert (Poetry.truthy groups = false) as ->
    by (destruct Hgroups as [-> | ->]; reflexivity).
  unfold Config.is_compatible_with_group_deps, Config.version, and_then.
  now rewrite Hinstalled.
Qed.

Lemma export_fails_before_running_witness :
  Poetry.export uninstalled_env None sample_state
  = (Raise (External (lit "PackageNotFoundError")),
     snd (Poetry.config uninstalled_env sample_state))
  /\ Poetry.executed (snd (Poetry.config uninstalled_env sample_state)) = []
  /\ Poetry.sys_stderr (snd (Poetry.config uninstalled_env sample_state)) = [].
Proof.
  apply (@export_fails_before_running uninstalled_env None sample_state
           (snd (Poetry.config uninstalled_env sample_state))
           {| Config.id := 0; Config._config := Table sample_metadata |}
           (External (lit "PackageNotFoundError"))).
  - vm_compute; reflexivity.
  - right. exists [lit "pygments"; lit "docs"].
    conjunctions; [vm_compute; reflexivity | now left | reflexivity].
Defined.

(** X6: a manifest that cannot be loaded stops [export] and [config]
    without any effect: the exception of the load is raised, the state of
    the adapter is what it was, and the failure is not remembered, so that
    a later access that finds a manifest returns its configuration. *)
Theorem failed_load_leaves_no_trace (env : Environment) (groups : option (list str))
    (st : Poetry.State) (e : exn) :
  Poetry._config (Poetry.self st) = None ->
  Config.__init__ env (Poetry.constructed st) (cwd env) = Raise e ->
  Poetry.config env st = (Raise e, st)
  /\ Poetry.export env groups st = (Raise e, st)
  /\ forall env' cfg,
       Config.__init__ env' (Poetry.constructed st) (cwd env') = Return cfg ->
       fst (Poetry.config env' (snd (Poetry.export env groups st))) = Return cfg.
Proof.
  intros Hnone Hinit.
  assert (Poetry.config env st = (Raise e, st)) as Hconfig
    by now rewrite config_run, Hnone, Hinit.
  assert (Poetry.export env groups st = (Raise e, st)) as Hexport.
  { rewrite export_split. unfold Poetry.bind. now rewrite export_args_run, Hconfig. }
  conjunctions; [exact Hconfig | exact Hexport |].
  intros env' cfg Hinit'. rewrite Hexport. simpl.
  now rewrite config_run, Hnone, Hinit'.
Qed.

Lemma failed_load_leaves_no_trace_witness :
  Poetry.export empty_env None sample_state
  = (Raise (External (lit "FileNotFoundError")), sample_state)
  /\ fst (Poetry.config uninstalled_env (snd (Poetry.export empty_env None sample_state)))
     = Return {| Config.id := 0; Config._config := Table sample_metadata |}.
Proof.
  destruct (@failed_load_leaves_no_trace empty_env None sample_state
              (External (lit "FileNotFoundError")) eq_refl eq_refl)
    as (_ & Hexport & Hlater).
  split; [exact Hexport|].
  apply Hlater. reflexivity.
Defined.

(** X7: [Config.__init__] succeeds exactly when the parsed manifest has a
    table [tool] with an entry [poetry], which becomes the [_config] of the
    object; a manifest without [tool], or a [tool] table without [poetry],
    raises [KeyError], a [tool] that is no table raises [TypeError], and
    what reading or parsing raises is raised. *)
Theorem Config_init_outcome (env : Environment) (self : nat) (project : Path) :
  (forall cfg,
      Config.__init__ env self project = Return cfg
      <-> exists document tool poetry,
            parse_file env (project ++ [lit "pyproject.toml"]) = Return (Table document)
            /\ dict_lookup (lit "tool") document = Some (Table tool)
            /\ dict_lookup (lit "poetry") tool = Some poetry
            /\ cfg = {| Config.id := self; Config._config := poetry |})
  /\ (forall e,
      parse_file env (project ++ [lit "pyproject.toml"]) = Raise e ->
      Config.__init__ env self project = Raise e)
  /\ (forall document,
      parse_file env (project ++ [lit "pyproject.toml"]) = Return (Table document) ->
      dict_lookup (lit "tool") document = None ->
      Config.__init__ env self project = Raise KeyError)
  /\ (forall document tool,
      parse_file env (project ++ [lit "pyproject.toml"]) = Return (Table document) ->
      dict_lookup (lit "tool") document = Some tool ->
      isinstance_dict tool = false ->
      Config.__init__ env self project = Raise TypeError)
  /\ (forall document tool,
      parse_file env (project ++ [lit "pyproject.toml"]) = Return (Table document) ->
      dict_lookup (lit "tool") document = Some (Table tool) ->
      dict_lookup (lit "poetry") tool = None ->
      Config.__init__ env self project = Raise KeyError).
Proof.
  unfold Config.__init__, and_then, getitem. conjunctions.
  - intros cfg. split.
    + destruct (parse_file env (project ++ [lit "pyproject.toml"])) as [data|e];
        [|discriminate].
      destruct data as [| | | | | |document]; try discriminate.
      destruct (dict_lookup (lit "tool") document) as [tool|] eqn:Htool; [|discriminate].
      destruct tool as [| | | | | |tool]; try discriminate.
      destruct (dict_lookup (lit "poetry") tool) as [poetry|] eqn:Hpoetry; [|discriminate].
      intros H. injection H as <-. exists document, tool, poetry. auto.
    + intros (document & tool & poetry & -> & -> & -> & ->). reflexivity.
  - intros e ->. reflexivity.
  - intros document -> ->. reflexivity.
  - intros document tool -> -> Htool. destruct tool; try reflexivity. discriminate.
  - intros document tool -> -> ->. reflexivity.
Qed.

Lemma Config_init_outcome_witness :
  Config.__init__ (sample_env (Version.final [1; 2; 0]%N)) 7 [lit "home"; lit "foobar"]
  = Return {| Config.id := 7; Config._config := Table sample_metadata |}.
Proof.
  apply (proj1 (Config_init_outcome (sample_env (Version.final [1; 2; 0]%N)) 7
                  [lit "home"; lit "foobar"])).
  exists [(lit "tool", Table [(lit "poetry", Table sample_metadata)])],
    [(lit "poetry", Table sample_metadata)], (Table sample_metadata).
  conjunctions; reflexivity.
Defined.

(** X8: the members of [DistributionFormat] and their values correspond
    one to one: looking a member up by its value gives the member back, a
    string that is accepted is the value of the member it gives, and
    [build] does the same for a member as for its value. *)
Theorem format_round_trip :
  (forall f, Poetry.DistributionFormat_of_value (Poetry.value f) = Return f)
  /\ (forall s f, Poetry.DistributionFormat_of_value s = Return f -> Poetry.value f = s)
  /\ (forall f f', Poetry.value f = Poetry.value f' -> f = f')
  /\ (forall f st,
      Poetry.build (Poetry.Member f) st = Poetry.build (Poetry.Plain (Poetry.value f)) st).
Proof.
  assert (forall f, Poetry.DistributionFormat_of_value (Poetry.value f) = Return f)
    as Hback by (intros [|]; reflexivity).
  conjunctions.
  - exact Hback.
  - intros s f. unfold Poetry.DistributionFormat_of_value.
    destruct (PyStr.eqb s (Poetry.value WHEEL)) eqn:Hwheel.
    + apply eqb_eq in Hwheel. intros H. injection H as <-. now symmetry.
    + destruct (PyStr.eqb s (Poetry.value SDIST)) eqn:Hsdist; [|discriminate].
      apply eqb_eq in Hsdist. intros H. injection H as <-. now symmetry.
  - intros [|] [|] H; try reflexivity; discriminate H.
  - intros f st. rewrite !build_run. unfold coerce. now rewrite Hback.
Qed.

Lemma format_round_trip_witness :
  Poetry.value SDIST = lit "sdist".
Proof.
  apply (proj1 (proj2 format_round_trip) (lit "sdist") SDIST). reflexivity.
Defined.

Lemma export_prefix_shape (extras selection : list str) :
  exists rest,
    export_prefix extras ++ selection
    = lit "poetry" :: lit "export" :: lit "--format=requirements.txt" :: rest.
Proof. eexists. reflexivity. Qed.

(** One call hands at most one command to the session, a command of the
    module. *)
Lemma perform_executed (c : call) (st : Poetry.State) :
  Poetry.executed (perform c st) = Poetry.executed st
  \/ exists command,
       Poetry.executed (perform c st) = Poetry.executed st ++ [command]
       /\ poetry_command command.
Proof.
  destruct c as [env | env groups | format]; simpl.
  - left. apply config_frame.
  - destruct (export_outcome env groups st) as [(e & _ & _ & Hx & _) | (argv & Hargs & Hran & _)].
    + now left.
    + right. exists (export_command argv). split; [exact Hran|].
      unfold poetry_command. conjunctions; try reflexivity. left.
      rewrite export_args_run in Hargs. simpl args.
      destruct (Poetry.config env st) as [[cfg|e] st1]; [|discriminate].
      destruct (Config.extras cfg) as [extras|e]; [|discriminate].
      destruct (Poetry.truthy groups).
      * injection Hargs as <-. apply export_prefix_shape.
      * destruct (Config.is_compatible_with_group_deps env) as [[|]|e];
          [| |discriminate]; injection Hargs as <-; apply export_prefix_shape.
  - rewrite build_run. destruct (coerce format) as [f|e]; [|now left].
    right. exists (build_command f). split.
    + destruct (run_always (Poetry.session (Poetry.self st)) (build_command f))
        as [[[output|]|]|e]; reflexivity.
    + unfold poetry_command. conjunctions; try reflexivity. right. now exists f.
Qed.

(** X9: the commands handed to the session form a history that only
    grows: whatever calls are made on an adapter, the earlier commands stay
    in place, every call adds at most one, and each command added is
    [poetry export --format=requirements.txt ...] or
    [poetry build --format=<value> --no-ansi], run as an external program,
    silently, with the error stream left alone. *)
Theorem session_history (calls : list call) (st : Poetry.State) :
  exists added,
    Poetry.executed (perform_all calls st) = Poetry.executed st ++ added
    /\ length added <= length calls
    /\ Forall poetry_command added.
Proof.
  revert st; induction calls as [|c calls IH]; intros st; simpl.
  - exists []. conjunctions; [now rewrite app_nil_r | constructor | constructor].
  - destruct (IH (perform c st)) as (added & Hadded & Hlength & Hshape).
    fold (perform_all calls (perform c st)).
    destruct (perform_executed c st) as [Hsame | (command & Hmore & Hcommand)].
    + exists added. rewrite Hadded, Hsame. conjunctions; [reflexivity | lia | assumption].
    + exists (command :: added). rewrite Hadded, Hmore, <- app_assoc.
      conjunctions; [reflexivity | simpl; lia | now constructor].
Qed.

Lemma session_history_witness :
  exists added,
    Poetry.executed
      (perform_all [Build (Poetry.Plain (lit "zip")); Export uninstalled_env None;
                    Build (Poetry.Member WHEEL);
                    Export uninstalled_env (Some [lit "docs"])] sample_state)
    = Poetry.executed sample_state ++ added
    /\ length added <= 4
    /\ Forall poetry_command added.
Proof.
  apply (session_history
           [Build (Poetry.Plain (lit "zip")); Export uninstalled_env None;
            Build (Poetry.Member WHEEL);
            Export uninstalled_env (Some [lit "docs"])] sample_state).
Defined.



Lemma Config_init_raises (env : Environment) (self : nat) (project : Path) (e : exn) :
  Config.__init__ env self project = Raise e ->
  parse_file env (project ++ [lit "pyproject.toml"]) = Raise e
  \/ e = KeyError \/ e = TypeError.
Proof.
  unfold Config.__init__, and_then, getitem.
  destruct (parse_file env (project ++ [lit "pyproject.toml"])) as [data|e'];
    [|intros H; left; congruence].
  intros H. right.
  destruct data as [| | | | | |document]; try (right; congruence).
  destruct (dict_lookup (lit "tool") document) as [tool|]; [|left; congruence].
  destruct tool as [| | | | | |tool]; try (right; congruence).
  destruct (dict_lookup (lit "poetry") tool) as [poetry|]; [discriminate|].
  left; congruence.
Qed.

Lemma Config_extras_raises (cfg : Config.t) (e : exn) :
  Config.extras cfg = Raise e -> e = AttributeError \/ e = AssertionError.
Proof.
  unfold Config.extras, and_then, get.
  destruct (Config._config cfg) as [| | | | | |entries]; try (left; congruence).
  assert (forall l : list str, forallb (fun _ : str => true) l = true) as Hkeys
    by (induction l; auto).
  destruct (dict_lookup (lit "extras") entries) as [[| | | | | |declared]|];
    try (right; congruence).
  - unfold assert. rewrite Hkeys. discriminate.
  - unfold assert. discriminate.
Qed.

Lemma config_raises (env : Environment) (st st1 : Poetry.State) (e : exn) :
  Poetry.config env st = (Raise e, st1) ->
  Config.__init__ env (Poetry.constructed st) (cwd env) = Raise e.
Proof.
  rewrite config_run.
  destruct (Poetry._config (Poetry.self st)); [discriminate|].
  destruct (Config.__init__ env (Poetry.constructed st) (cwd env));
    [discriminate | congruence].
Qed.

(** What the first part of [Poetry.export] can raise. *)
Lemma export_args_raises (env : Environment) (groups : option (list str))
    (st : Poetry.State) (e : exn) :
  fst (export_args env groups st) = Raise e ->
  (exists path, parse_file env path = Raise e)
  \/ poetry_installed env = Raise e
  \/ In e [KeyError; TypeError; AttributeError; AssertionError].
Proof.
  rewrite export_args_run.
  destruct (Poetry.config env st) as [[cfg|e0] st1] eqn:Hcfg.
  - destruct (Config.extras cfg) as [extras|e0] eqn:Hextras.
    + destruct (Poetry.truthy groups); [discriminate|].
      unfold Config.is_compatible_with_group_deps, Config.version, and_then.
      destruct (poetry_installed env) as [installed|e0].
      * destruct (Version.ge installed Config.MINIMUM_VERSION_SUPPORTING_GROUP_DEPS);
          discriminate.
      * simpl. intros H. right. left. congruence.
    + simpl. intros H. injection H as ->. do 2 right.
      destruct (Config_extras_raises _ Hextras) as [-> | ->]; simpl; auto.
  - simpl. intros H. injection H as ->. apply config_raises in Hcfg.
    destruct (Config_init_raises _ _ _ Hcfg) as [H | [-> | ->]].
    + left. eexists. exact H.
    + do 2 right. simpl. auto.
    + do 2 right. simpl. auto.
Qed.

(** Where an exception of [Poetry.export] comes from. *)
Lemma export_raises_origin (env : Environment) (groups : option (list str))
    (st : Poetry.State) (e : exn) :
  fst (Poetry.export env groups st) = Raise e ->
  (exists path, parse_file env path = Raise e)
  \/ poetry_installed env = Raise e
  \/ (exists command, run_always (Poetry.session (Poetry.self st)) command = Raise e)
  \/ In e [KeyError; TypeError; AttributeError; AssertionError]
  \/ (e = CommandSkippedError export_skipped
      /\ exists command,
           ran st (snd (Poetry.export env groups st)) command
           /\ run_always (Poetry.session (Poetry.self st)) command = Return None).
Proof.
  intros Hraise.
  destruct (export_outcome env groups st)
    as [(e' & Hr & Hargs & _) | (argv & _ & Hran & Hanswer)].
  + assert (e' = e) as -> by congruence.
    destruct (export_args_raises _ _ _ Hargs) as [H | [H | H]]; auto.
  + destruct (run_always (Poetry.session (Poetry.self st)) (export_command argv))
      as [[[output|]|]|e'] eqn:Hout.
    * rewrite Hanswer in Hraise. discriminate.
    * destruct Hanswer as [Hr _]. rewrite Hr in Hraise. injection Hraise as <-.
      do 3 right. left. simpl. auto.
    * destruct Hanswer as [Hr _]. rewrite Hr in Hraise. injection Hraise as <-.
      do 4 right. split; [reflexivity|]. now exists (export_command argv).
    * destruct Hanswer as [Hr _]. rewrite Hr in Hraise. injection Hraise as <-.
      do 2 right. left. now exists (export_command argv).
Qed.

(** Where an exception of [Poetry.build] comes from. *)
Lemma build_raises_origin (format : Poetry.format_arg) (st : Poetry.State) (e : exn) :
  fst (Poetry.build format st) = Raise e ->
  (exists command, run_always (Poetry.session (Poetry.self st)) command = Raise e)
  \/ In e [ValueError; AssertionError; IndexError]
  \/ (e = CommandSkippedError build_skipped
      /\ exists command,
           ran st (snd (Poetry.build format st)) command
           /\ run_always (Poetry.session (Poetry.self st)) command = Return None).
Proof.
  intros Hraise. rewrite build_run in Hraise |- *.
  destruct (coerce format) as [f|e'] eqn:Hcoerce.
  + cbv zeta in Hraise |- *.
    destruct (run_always (Poetry.session (Poetry.self st)) (build_command f))
      as [[[output|]|]|e'] eqn:Hout; simpl in Hraise |- *.
    * right. left. unfold list_getitem in Hraise.
      destruct ((_ <? 0) || _)%Z in Hraise;
        [injection Hraise as <-; simpl; auto|].
      destruct (nth_error _ _) in Hraise; [discriminate|].
      injection Hraise as <-; simpl; auto.
    * injection Hraise as <-. right. left. simpl. auto.
    * injection Hraise as <-. do 2 right. split; [reflexivity|].
      exists (build_command f). split; [reflexivity | assumption].
    * injection Hraise as <-. left. now exists (build_command f).
  + simpl in Hraise. injection Hraise as <-. right. left.
    destruct format as [f|s]; [discriminate|].
    unfold coerce, Poetry.DistributionFormat_of_value in Hcoerce.
    destruct (PyStr.eqb s (Poetry.value WHEEL)); [discriminate|].
    destruct (PyStr.eqb s (Poetry.value SDIST)); [discriminate|].
    injection Hcoerce as <-. simpl. auto.
Qed.



(** X12: the module raises its own two exceptions only as follows.  When
    no collaborator raises [IncompatiblePoetryVersionError], neither
    [config] nor [export] nor [build] raises it; when no collaborator
    raises a [CommandSkippedError], [export] and [build] raise one only
    after the session has answered their command with [None]. *)
Theorem declared_errors :
  (forall env groups format st,
      foreign IncompatiblePoetryVersionError env (Poetry.session (Poetry.self st)) ->
      fst (Poetry.config env st) <> Raise IncompatiblePoetryVersionError
      /\ fst (Poetry.export env groups st) <> Raise IncompatiblePoetryVersionError
      /\ fst (Poetry.build format st) <> Raise IncompatiblePoetryVersionError)
  /\ (forall env groups st msg,
      foreign (CommandSkippedError msg) env (Poetry.session (Poetry.self st)) ->
      fst (Poetry.export env groups st) = Raise (CommandSkippedError msg) ->
      exists command,
        ran st (snd (Poetry.export env groups st)) command
        /\ run_always (Poetry.session (Poetry.self st)) command = Return None)
  /\ (forall env format st msg,
      foreign (CommandSkippedError msg) env (Poetry.session (Poetry.self st)) ->
      fst (Poetry.build format st) = Raise (CommandSkippedError msg) ->
      exists command,
        ran st (snd (Poetry.build format st)) command
        /\ run_always (Poetry.session (Poetry.self st)) command = Return None).
Proof.
  conjunctions.
  - intros env groups format st (Hparse & Hinstalled & Hrun). conjunctions.
    + intros Hraise.
      destruct (Poetry.config env st) as [r st1] eqn:Hcfg. simpl in Hraise. subst r.
      apply config_raises in Hcfg.
      destruct (Config_init_raises _ _ _ Hcfg) as [H | [H | H]];
        [now apply Hparse in H | discriminate | discriminate].
    + intros Hraise.
      destruct (export_raises_origin _ _ _ Hraise)
        as [[path H] | [H | [[command H] | [H | [H _]]]]].
      * now apply Hparse in H.
      * now apply Hinstalled.
      * now apply Hrun in H.
      * simpl in H. intuition discriminate.
      * discriminate.
    + intros Hraise.
      destruct (build_raises_origin _ _ Hraise)
        as [[command H] | [H | [H _]]].
      * now apply Hrun in H.
      * simpl in H. intuition discriminate.
      * discriminate.
  - intros env groups st msg (Hparse & Hinstalled & Hrun) Hraise.
    destruct (export_raises_origin _ _ _ Hraise)
      as [[path H] | [H | [[command H] | [H | [_ H]]]]].
    + now apply Hparse in H.
    + now apply Hinstalled in H.
    + now apply Hrun in H.
    + simpl in H. intuition discriminate.
    + exact H.
  - intros env format st msg (Hparse & Hinstalled & Hrun) Hraise.
    destruct (build_raises_origin _ _ Hraise)
      as [[command H] | [H | [_ H]]].
    + now apply Hrun in H.
    + simpl in H. intuition discriminate.
    + exact H.
Qed.

Lemma declared_errors_witness :
  exists command,
    ran (Poetry.fresh (sample_session None))
      (snd (Poetry.export uninstalled_env (Some [lit "docs"])
              (Poetry.fresh (sample_session None))))
      command
    /\ run_always (Poetry.session (Poetry.self (Poetry.fresh (sample_session None))))
         command = Return None.
Proof.
  apply (proj1 (proj2 declared_errors) uninstalled_env (Some [lit "docs"])
           (Poetry.fresh (sample_session None)) export_skipped).
  - unfold foreign. conjunctions; intros; discriminate.
  - vm_compute; reflexivity.
Defined.

(** X13: a filename that [build] returns is never empty and has no
    whitespace in it; it is returned only after the format was accepted and
    the session has captured an output, of which it is the final token. *)
Theorem build_filename_clean (format : Poetry.format_arg)
    (st st' : Poetry.State) (filename : str) :
  Poetry.build format st = (Return filename, st') ->
  filename <> []
  /\ Forall (fun c => PyStr.isspace c = false) filename
  /\ exists f output,
       coerce format = Return f
       /\ ran st st' (build_command f)
       /\ run_always (Poetry.session (Poetry.self st)) (build_command f)
          = Return (Some (Text output))
       /\ final_token output filename
       /\ mentions output filename.
Proof.
  rewrite build_run.
  destruct (coerce format) as [f|e]; [|discriminate].
  cbv zeta.
  destruct (run_always (Poetry.session (Poetry.self st)) (build_command f))
    as [[[output|]|]|e] eqn:Hout; try discriminate.
  intros H. injection H as Hitem <-.
  destruct (blank_or_final_token output) as [Hblank | [token Htoken]].
  - rewrite (blank_split Hblank) in Hitem. discriminate.
  - pose proof Htoken as Hsplit. apply final_token_split in Hsplit as [front Hsplit].
    rewrite Hsplit, list_getitem_last in Hitem. injection Hitem as ->.
    pose proof Htoken as (before & after & Houtput & Hne & Hvisible & _).
    conjunctions; [exact Hne | exact Hvisible |].
    exists f, output. conjunctions; try reflexivity; try assumption.
    now exists before, after.
Qed.

Lemma build_filename_clean_witness :
  lit "foobar-0.1.0-py3-none-any.whl" <> []
  /\ Forall (fun c => PyStr.isspace c = false) (lit "foobar-0.1.0-py3-none-any.whl").
Proof.
  destruct (@build_filename_clean (Poetry.Plain (lit "wheel"))
              (Poetry.fresh (sample_session (Some sample_build_output)))
              (snd (Poetry.build (Poetry.Plain (lit "wheel"))
                      (Poetry.fresh (sample_session (Some sample_build_output)))))
              (lit "foobar-0.1.0-py3-none-any.whl"))
    as (Hne & Hvisible & _).
  - vm_compute; reflexivity.
  - split; assumption.
Defined.

(** X14: [export] succeeds whenever the configuration can be had and its
    extras read, groups are named or the installed version can be read, and
    the session captures an output.  It then hands over exactly one
    command, the fixed part for the extras followed by the flags of the
    groups or the flag for the installed version, returns the output
    without its warning lines and prints those.  Neither the name of the
    package nor, with groups, the installed version is asked for. *)
Theorem export_succeeds (env : Environment) (groups : option (list str))
    (st st1 : Poetry.State) (cfg : Config.t) (extras selection : list str) (output : str) :
  Poetry.config env st = (Return cfg, st1) ->
  Config.extras cfg = Return extras ->
  (exists g gs,
      groups = Some (g :: gs)
      /\ selection = map (fun group => lit "--only=" ++ group) (g :: gs))
  \/ ((groups = None \/ groups = Some [])
      /\ exists installed,
           poetry_installed env = Return installed
           /\ selection
              = [if Version.ge installed Config.MINIMUM_VERSION_SUPPORTING_GROUP_DEPS
                 then lit "--with=dev" else lit "--dev"]) ->
  run_always (Poetry.session (Poetry.self st))
    (export_command (export_prefix extras ++ selection)) = Return (Some (Text output)) ->
  Poetry.export env groups st
  = (Return (strip_warnings output),
     Poetry.write_stderr
       (concat (map (fun line => line ++ newline) (warnings_of output)))
       (Poetry.record_command (export_command (export_prefix extras ++ selection)) st1)).
Proof.
  intros Hcfg Hextras Hselection Hout.
  pose proof (config_frame env st) as (Hs & _). rewrite Hcfg in Hs. simpl in Hs.
  rewrite export_split. unfold Poetry.bind.
  rewrite export_args_run, Hcfg, Hextras.
  destruct Hselection as [(g & gs & -> & ->) | (Hgroups & installed & Hinstalled & ->)].
  - cbn [Poetry.truthy Poetry.elements].
    rewrite export_finish_run, Hs, Hout. reflexivity.
  - assert (Poetry.truthy groups = false) as ->
      by (destruct Hgroups as [-> | ->]; reflexivity).
    unfold Config.is_compatible_with_group_deps, Config.version, and_then.
    rewrite Hinstalled.
    destruct (Version.ge installed Config.MINIMUM_VERSION_SUPPORTING_GROUP_DEPS);
      rewrite export_finish_run, Hs, Hout; reflexivity.
Qed.

Lemma export_succeeds_witness :
  Poetry.export uninstalled_env (Some [lit "docs"]) sample_state
  = (Return (strip_warnings sample_requirements),
     Poetry.write_stderr
       (concat (map (fun line => line ++ newline) (warnings_of sample_requirements)))
       (Poetry.record_command
          (export_command
             (export_prefix [lit "pygments"; lit "docs"]
              ++ map (fun group => lit "--only=" ++ group) [lit "docs"]))
          (snd (Poetry.config uninstalled_env sample_state)))).
Proof.
  apply (@export_succeeds uninstalled_env (Some [lit "docs"]) sample_state
           (snd (Poetry.config uninstalled_env sample_state))
           {| Config.id := 0; Config._config := Table sample_metadata |}
           [lit "pygments"; lit "docs"]
           (map (fun group => lit "--only=" ++ group) [lit "docs"])
           sample_requirements).
  - vm_compute; reflexivity.
  - vm_compute; reflexivity.
  - left. exists (lit "docs"), []. split; reflexivity.
  - reflexivity.
Defined.
